(** * Iris species prediction service: [app.py] and [deploy.py]

    A shallow embedding of the two FastAPI variants of the service and the
    properties of their request/response contract and startup lifecycle.

    - [Py]      : the Python values, exceptions and effects both files use;
    - [FastAPI] : what the framework does around a path operation
                  (validation of the declared schema, responses);
    - [app]     : [src/app.py], the minimal variant (model fetched from GCS);
    - [deploy]  : [src/deploy.py], the variant with health checks and telemetry;
    - [Samples] : concrete estimators, bodies and states.

    Path operations are computations over the module globals that may
    raise and that leave a trace of their effects (lines printed, log
    records, calls of the estimator). Dictionaries are [gmap]s. *)

From Stdlib Require Import ZArith String List.
From Stdlib Require Import Floats.SpecFloat.
From stdpp Require Import gmap strings pretty.

Local Open Scope Z_scope.
Local Open Scope string_scope.

(* ===================================================================== *)
(** * Python values, exceptions and effects                               *)
(* ===================================================================== *)

Module Py.

(** A Python [float] is an IEEE 754 value: zero, finite, infinite or NaN. *)
Definition PyFloat : Type := spec_float.

Definition is_finite (x : PyFloat) : bool :=
  match x with
  | S754_zero _ | S754_finite _ _ _ => true
  | S754_infinity _ | S754_nan => false
  end.

(** Exceptions below [Exception]. [HTTPException] is the one FastAPI turns
    into a response with the given status; every other class is kept by
    its name and the text [str(e)] evaluates to. *)
Inductive PyExc : Type :=
  | HTTPException (status_code : Z) (detail : string)
  | Exc (cls : string) (text : string).

(** [str(e)]; for [HTTPException] it is ["<status_code>: <detail>"]. *)
Definition str_exc (e : PyExc) : string :=
  match e with
  | HTTPException sc d => pretty sc +:+ ": " +:+ d
  | Exc _ t => t
  end.

Inductive result (A : Type) : Type :=
  | Ok (a : A)
  | Raise (e : PyExc).
Arguments Ok {A} a.
Arguments Raise {A} e.

(** What [model.predict(X)[0]] evaluates to. The estimator is duck typed:
    a label is a [str], an integer (Python [int] or a numpy integer), or
    any other object, known by what [int(y)] and [str(y)] do on it. *)
Inductive RawLabel : Type :=
  | LStr (s : string)
  | LInt (z : Z)
  | LObj (as_int : result Z) (as_str : string).

(** [isinstance(y, str)] *)
Definition isinstance_str (y : RawLabel) : bool :=
  match y with LStr _ => true | _ => false end.

(** [int(y)] on a label that is not a [str]. *)
Definition int_ (y : RawLabel) : result Z :=
  match y with
  | LInt z => Ok z
  | LObj i _ => i
  | LStr s => Raise (Exc "ValueError" ("invalid literal for int() with base 10: '" +:+ s +:+ "'"))
  end.

(** [str(y)] *)
Definition str_ (y : RawLabel) : string :=
  match y with
  | LStr s => s
  | LInt z => pretty z
  | LObj _ s => s
  end.

(** Values stored in a response dictionary. *)
Inductive PyVal : Type :=
  | VStr (s : string)
  | VInt (z : Z)
  | VFloat (x : PyFloat)
  | VObj (as_int : result Z) (as_str : string).

(** A label put in a dictionary as it is. *)
Definition val_of_label (y : RawLabel) : PyVal :=
  match y with
  | LStr s => VStr s
  | LInt z => VInt z
  | LObj i s => VObj i s
  end.

(** A response body: none, a JSON object, plain text, or the list of
    offending field names the framework reports when the request body
    fails validation. *)
Inductive Body : Type :=
  | BEmpty
  | BJson (d : gmap string PyVal)
  | BText (s : string)
  | BErrors (fields : list string).

Record Response : Type := mkResponse { status_code : Z; body : Body }.

(** What a path operation returns: a dictionary (sent as 200 with a JSON
    body) or a ready [Response]. *)
Inductive Returned : Type :=
  | RDict (d : gmap string PyVal)
  | RResponse (r : Response).

(** The feature matrix [X = [[...]]] handed to the estimator. *)
Definition Matrix : Type := list (list PyFloat).

(** Values of the dictionaries handed to [json.dumps] for a log line. *)
Inductive LogVal : Type :=
  | GStr (s : string)
  | GFloat (x : PyFloat)
  | GMatrix (X : Matrix)
  | GDict (d : gmap string PyVal).

(** Observable effects, in the order they happen: a line on stdout, a
    log record with a text message, a log record whose message is
    [json.dumps] of a dictionary, and a call of the estimator. *)
Inductive Event : Type :=
  | EPrint (line : string)
  | ELog (level : string) (message : string)
  | ELogJson (level : string) (fields : gmap string LogVal)
  | EPredict (X : Matrix).

Definition is_predict (ev : Event) : bool :=
  match ev with EPredict _ => true | _ => false end.

(** The serialized artifact. *)
Definition Bytes : Type := list Byte.byte.

(** JSON values found in a request body. *)
Inductive Json : Type :=
  | JNull
  | JBool (b : bool)
  | JInt (z : Z)
  | JFloat (x : PyFloat)
  | JStr (s : string)
  | JOther.

(** The estimator interface: the only capability used is [predict]. The
    method runs on the shared model object and may change it, so it
    returns the object along with the outcome of [model.predict(X)[0]]. *)
Class Estimator (ModelObj : Type) : Type :=
  predict0 : ModelObj -> Matrix -> result RawLabel * ModelObj.

(** ** Computations: global state, exceptions, effect trace *)

Definition M (S A : Type) : Type := S -> result A * S * list Event.

Definition ret {S A} (a : A) : M S A := fun s => (Ok a, s, []).

Definition bind {S A B} (c : M S A) (k : A -> M S B) : M S B :=
  fun s =>
    match c s with
    | (Ok a, s1, t1) => let '(r, s2, t2) := k a s1 in (r, s2, (t1 ++ t2)%list)
    | (Raise e, s1, t1) => (Raise e, s1, t1)
    end.

Definition raise {S A} (e : PyExc) : M S A := fun s => (Raise e, s, []).

(** [try: c except Exception as e: h e] *)
Definition try_except {S A} (c : M S A) (h : PyExc -> M S A) : M S A :=
  fun s =>
    match c s with
    | (Ok a, s1, t1) => (Ok a, s1, t1)
    | (Raise e, s1, t1) => let '(r, s2, t2) := h e s1 in (r, s2, (t1 ++ t2)%list)
    end.

Definition get {S} : M S S := fun s => (Ok s, s, []).
Definition put {S} (s' : S) : M S unit := fun _ => (Ok tt, s', []).
Definition emit {S} (ev : Event) : M S unit := fun s => (Ok tt, s, [ev]).
Definition lift {S A} (r : result A) : M S A := fun s => (r, s, []).

Definition outcome {S A} (x : result A * S * list Event) : result A := x.1.1.
Definition final {S A} (x : result A * S * list Event) : S := x.1.2.
Definition trace {S A} (x : result A * S * list Event) : list Event := x.2.

End Py.

Import Py.

Declare Scope py_scope.
Delimit Scope py_scope with py.
Notation "'let*' x ':=' c 'in' k" := (bind c (fun x => k))
  (at level 10, x name, c at level 100, k at level 200) : py_scope.
Notation "'run' c 'in' k" := (bind c (fun _ => k))
  (at level 10, c at level 100, k at level 200) : py_scope.
Local Open Scope py_scope.

(* ===================================================================== *)
(** * The framework around a path operation                               *)
(* ===================================================================== *)

Module FastAPI.

Section Validation.
(** pydantic's conversion of a JSON token that is not a float into a
    [float] field (integers, numeric strings, ...). *)
Context (coerce : Json -> option PyFloat).

(** A field annotated [float], with no constraint on it: a JSON float is
    taken as it is, any other token goes through the conversion. *)
Definition validate_float (v : Json) : option PyFloat :=
  match v with
  | JFloat x => Some x
  | _ => coerce v
  end.

Definition field (b : gmap string Json) (name : string) : option PyFloat :=
  b !! name ≫= validate_float.

(** The four fields both schemas ([IrisInput], [Input]) declare, all
    required. *)
Definition field_names : list string :=
  ["sepal_length"; "sepal_width"; "petal_length"; "petal_width"].

Definition bad_field (b : gmap string Json) (name : string) : bool :=
  match field b name with Some _ => false | None => true end.

Definition errors (b : gmap string Json) : list string :=
  List.filter (bad_field b) field_names.

(** The body is [None] when it is absent or not a JSON object. *)
Definition validate (body : option (gmap string Json))
  : list string + (PyFloat * PyFloat * PyFloat * PyFloat) :=
  match body with
  | None => inl ["body"]
  | Some b =>
      match field b "sepal_length", field b "sepal_width",
            field b "petal_length", field b "petal_width" with
      | Some sl, Some sw, Some pl, Some pw => inr (sl, sw, pl, pw)
      | _, _, _, _ => inl (errors b)
      end
  end.

(** A body is malformed when it is no object, or one of the four fields
    is missing or does not parse as a float. *)
Definition malformed (body : option (gmap string Json)) : Prop :=
  match body with
  | None => True
  | Some b => exists name, In name field_names /\ field b name = None
  end.
End Validation.

(** The response to a request whose body failed validation. *)
Definition unprocessable (errs : list string) : Response :=
  mkResponse 422 (BErrors errs).

(** The response for what a path operation returned. *)
Definition respond (r : Returned) : Response :=
  match r with
  | RDict d => mkResponse 200 (BJson d)
  | RResponse r => r
  end.

(** The response for an [HTTPException] leaving a path operation. *)
Definition http_error (sc : Z) (detail : string) : Response :=
  mkResponse sc (BJson {[ "detail" := VStr detail ]}).

End FastAPI.

Import FastAPI.

(* ===================================================================== *)
(** * [src/app.py]                                                        *)
(* ===================================================================== *)

Module app.

Definition SERVICE_ACCOUNT_KEY : string := "github-dvc-key.json".
Definition BUCKET_NAME : string := "mlops-course-phonic-axle-473506-u8-unique".
Definition GCS_MODEL_BLOB : string := "dvcstore/files/md5/b5/0729b0bfd352c510335b6e0c71b236".
Definition LOCAL_MODEL_PATH : string := "models/model.pkl".

Record IrisInput : Type := mkIrisInput {
  sepal_length : PyFloat;
  sepal_width : PyFloat;
  petal_length : PyFloat;
  petal_width : PyFloat
}.

(** What the process finds around it: the cached artifact (if any), the
    service-account key, whether [models/] can be created, and what
    fetching the blob from the bucket gives. *)
Record World : Type := mkWorld {
  local_model : option Bytes;
  key_present : bool;
  mkdir_models : result unit;
  gcs_blob : result Bytes
}.

Definition label_map : gmap Z string :=
  {[ 0 := "setosa"; 1 := "versicolor"; 2 := "virginica" ]}.

Section Service.
Context {ModelObj : Type} `{!Estimator ModelObj}.
(** [joblib.load] on the bytes of the artifact. *)
Context (joblib_load : Bytes -> result ModelObj).
Context (coerce : Json -> option PyFloat).

(** The module global [model] and the file system. *)
Record State : Type := mkState {
  model : option ModelObj;
  fs : World
}.

Definition set_model (m : option ModelObj) : M State unit :=
  fun st => (Ok tt, mkState m (fs st), []).

Definition write_local_model (b : Bytes) : M State unit :=
  fun st =>
    let w := fs st in
    (Ok tt, mkState (model st)
              (mkWorld (Some b) (key_present w) (mkdir_models w) (gcs_blob w)), []).

Definition download_model_from_gcs : M State unit :=
  let* st := get in
  run lift (mkdir_models (fs st)) in
  run (if key_present (fs st) then ret tt
       else raise (Exc "FileNotFoundError"
              ("Service account JSON '" +:+ SERVICE_ACCOUNT_KEY
                 +:+ "' not found in current dir."))) in
  let* blob := lift (gcs_blob (fs st)) in
  run write_local_model blob in
  emit (EPrint ("✅ Model downloaded from GCS → " +:+ LOCAL_MODEL_PATH)).

(** [joblib.load(LOCAL_MODEL_PATH)] *)
Definition joblib_load_path (file : option Bytes) : result ModelObj :=
  match file with
  | Some b => joblib_load b
  | None => Raise (Exc "FileNotFoundError"
              ("[Errno 2] No such file or directory: '" +:+ LOCAL_MODEL_PATH +:+ "'"))
  end.

Definition load_model : M State ModelObj :=
  let* st := get in
  run (match local_model (fs st) with
       | None =>
           run emit (EPrint "⏳ model.pkl not found locally. Downloading from GCS...") in
           download_model_from_gcs
       | Some _ => ret tt
       end) in
  let* st := get in
  let* mdl := lift (joblib_load_path (local_model (fs st))) in
  run emit (EPrint "✅ Model loaded into memory.") in
  ret mdl.

Definition on_startup : M State unit :=
  try_except
    (let* m := load_model in set_model (Some m))
    (fun e =>
       run emit (EPrint ("⚠️ Could not load model on startup: " +:+ str_exc e)) in
       set_model None).

Definition root : M State Returned :=
  ret (RDict {[ "message" := VStr "Iris Species Prediction API is running." ]}).

(** [model.predict(X)[0]] on the global model object. *)
Definition model_predict (X : Matrix) : M State RawLabel :=
  fun st =>
    match model st with
    | Some m =>
        let '(r, m') := predict0 m X in
        (r, mkState (Some m') (fs st), [EPredict X])
    | None =>
        (Raise (Exc "AttributeError" "'NoneType' object has no attribute 'predict'"),
         st, [])
    end.

Definition predict (features : IrisInput) : M State Returned :=
  let* st := get in
  match model st with
  | None => raise (HTTPException 503 "Model not loaded. Try again later.")
  | Some _ =>
      let X := [[ sepal_length features; sepal_width features;
                  petal_length features; petal_width features ]] in
      try_except
        (let* y_pred := model_predict X in
         let* species :=
           (if isinstance_str y_pred then ret (str_ y_pred)
            else
              let* k := lift (int_ y_pred) in
              ret (default "unknown" (label_map !! k))) in
         ret (RDict {[ "status" := VStr "success";
                       "predicted_label" := val_of_label y_pred;
                       "species" := VStr species ]}))
        (fun e =>
           raise (HTTPException 500 ("Prediction failed: " +:+ str_exc e)))
  end.

(** ** Requests *)

Inductive Request : Type :=
  | GET_root
  | POST_predict (body : option (gmap string Json)).

(** An exception other than [HTTPException] leaving a path operation:
    the server's plain 500. *)
Definition finish (x : result Returned * State * list Event)
  : Response * State * list Event :=
  match x with
  | (Ok r, st, t) => (respond r, st, t)
  | (Raise (HTTPException sc d), st, t) => (http_error sc d, st, t)
  | (Raise (Exc _ _), st, t) => (mkResponse 500 (BText "Internal Server Error"), st, t)
  end.

Definition handle (req : Request) (st : State) : Response * State * list Event :=
  match req with
  | GET_root => finish (root st)
  | POST_predict body =>
      match validate coerce body with
      | inl errs => (unprocessable errs, st, [])
      | inr (sl, sw, pl, pw) => finish (predict (mkIrisInput sl sw pl pw) st)
      end
  end.

(** The process before the startup event. *)
Definition boot (w : World) : State := mkState None w.

End Service.

End app.

(* ===================================================================== *)
(** * [src/deploy.py]                                                     *)
(* ===================================================================== *)

Module deploy.

Record Input : Type := mkInput {
  sepal_length : PyFloat;
  sepal_width : PyFloat;
  petal_length : PyFloat;
  petal_width : PyFloat
}.

Definition SPECIES_MAP : gmap Z string :=
  {[ 0 := "setosa"; 1 := "versicolor"; 2 := "virginica" ]}.

(** What one request reads from its surroundings: the trace id of the
    [model_inference] span and of the span current in the exception
    handler (both already formatted as 32 hex digits), the rounded
    elapsed time in milliseconds, and the request URL. *)
Record Env : Type := mkEnv {
  span_trace_id : string;
  handler_trace_id : string;
  latency_ms : PyFloat;
  url : string
}.

Section Service.
Context {ModelObj : Type} `{!Estimator ModelObj}.
(** [joblib.load] on the bytes of the artifact. *)
Context (joblib_load : Bytes -> result ModelObj).
Context (coerce : Json -> option PyFloat).

(** The module globals [model] and [app_state]. *)
Record State : Type := mkState {
  model : option ModelObj;
  app_state : gmap string bool
}.

(** The globals as the module body leaves them. *)
Definition boot : State :=
  mkState None {[ "is_ready" := false; "is_alive" := true ]}.

Definition set_model (m : ModelObj) : M State unit :=
  fun st => (Ok tt, mkState (Some m) (app_state st), []).

(** [app_state[key] = v] *)
Definition set_flag (key : string) (v : bool) : M State unit :=
  fun st => (Ok tt, mkState (model st) (<[key := v]> (app_state st)), []).

(** [app_state[key]] *)
Definition get_flag (key : string) : M State bool :=
  fun st =>
    match app_state st !! key with
    | Some v => (Ok v, st, [])
    | None => (Raise (Exc "KeyError" ("'" +:+ key +:+ "'")), st, [])
    end.

(** [joblib.load("models/model.pkl")] *)
Definition joblib_load_path (file : option Bytes) : result ModelObj :=
  match file with
  | Some b => joblib_load b
  | None => Raise (Exc "FileNotFoundError"
              "[Errno 2] No such file or directory: 'models/model.pkl'")
  end.

(** [file] is [models/model.pkl] as found when the process starts. *)
Definition startup_event (file : option Bytes) : M State unit :=
  try_except
    (run emit (ELog "INFO" "Loading model from models/model.pkl ...") in
     let* m := lift (joblib_load_path file) in
     run set_model m in
     run set_flag "is_ready" true in
     emit (ELog "INFO" "✅ Model loaded."))
    (fun e =>
       run emit (ELog "ERROR" ("❌ Failed to load model: " +:+ str_exc e)) in
       set_flag "is_ready" false).

Definition live_check : M State Returned :=
  let* alive := get_flag "is_alive" in
  if alive then ret (RDict {[ "status" := VStr "alive" ]})
  else ret (RResponse (mkResponse 500 BEmpty)).

Definition ready_check : M State Returned :=
  let* ready := get_flag "is_ready" in
  if ready then ret (RDict {[ "status" := VStr "ready" ]})
  else ret (RResponse (mkResponse 503 BEmpty)).

Definition exception_handler (env : Env) (exc : PyExc) : M State Response :=
  let trace_id := handler_trace_id env in
  run emit (ELogJson "ERROR"
              {[ "event" := GStr "unhandled_exception";
                 "trace_id" := GStr trace_id;
                 "path" := GStr (url env);
                 "error" := GStr (str_exc exc) ]}) in
  ret (mkResponse 500
         (BJson {[ "detail" := VStr "Internal Server Error";
                   "trace_id" := VStr trace_id ]})).

(** [model.predict(features)[0]] on the global model object. *)
Definition model_predict (X : Matrix) : M State RawLabel :=
  fun st =>
    match model st with
    | Some m =>
        let '(r, m') := predict0 m X in
        (r, mkState (Some m') (app_state st), [EPredict X])
    | None =>
        (Raise (Exc "AttributeError" "'NoneType' object has no attribute 'predict'"),
         st, [])
    end.

Definition predict (input : Input) (env : Env) : M State Returned :=
  let trace_id := span_trace_id env in
  try_except
    (let* st := get in
     run (match model st with
          | None => raise (Exc "RuntimeError" "Model not loaded")
          | Some _ => ret tt
          end) in
     let features := [[ sepal_length input; sepal_width input;
                        petal_length input; petal_width input ]] in
     let* raw_pred := model_predict features in
     let* species :=
       (if isinstance_str raw_pred then ret (str_ raw_pred)
        else
          let* k := lift (int_ raw_pred) in
          ret (default (str_ raw_pred) (SPECIES_MAP !! k))) in
     let latency := latency_ms env in
     let payload : gmap string PyVal :=
       {[ "status" := VStr "success";
          "predicted_label" := VStr species;
          "species" := VStr species;
          "latency_ms" := VFloat latency;
          "trace_id" := VStr trace_id ]} in
     run emit (ELogJson "INFO"
                 {[ "event" := GStr "prediction";
                    "trace_id" := GStr trace_id;
                    "input" := GMatrix features;
                    "output" := GDict payload;
                    "latency_ms" := GFloat latency;
                    "status" := GStr "success" ]}) in
     ret (RDict payload))
    (fun e =>
       run emit (ELogJson "ERROR"
                   {[ "event" := GStr "prediction_error";
                      "trace_id" := GStr trace_id;
                      "error" := GStr (str_exc e) ]}) in
       raise (HTTPException 500 "Prediction failed")).

(** ** Requests *)

Inductive Request : Type :=
  | GET_live_check
  | GET_ready_check
  | POST_predict (body : option (gmap string Json)).

(** An [HTTPException] gets the framework's response; any other
    exception goes to [exception_handler]. *)
Definition finish (env : Env) (x : result Returned * State * list Event)
  : Response * State * list Event :=
  match x with
  | (Ok r, st, t) => (respond r, st, t)
  | (Raise (HTTPException sc d), st, t) => (http_error sc d, st, t)
  | (Raise exc, st, t) =>
      match exception_handler env exc st with
      | (Ok resp, st', t') => (resp, st', (t ++ t')%list)
      | (Raise _, st', t') =>
          (mkResponse 500 (BText "Internal Server Error"), st', (t ++ t')%list)
      end
  end.

Definition handle (env : Env) (req : Request) (st : State)
  : Response * State * list Event :=
  match req with
  | GET_live_check => finish env (live_check st)
  | GET_ready_check => finish env (ready_check st)
  | POST_predict body =>
      match validate coerce body with
      | inl errs => (unprocessable errs, st, [])
      | inr (sl, sw, pl, pw) => finish env (predict (mkInput sl sw pl pw) env st)
      end
  end.

(** The states the process goes through: the one the startup event
    leaves, then one more for each request served. *)
Inductive reachable (file : option Bytes) : State -> Prop :=
  | reach_startup :
      reachable file (final (startup_event file boot))
  | reach_request st env req :
      reachable file st ->
      reachable file (handle env req st).1.2.

End Service.

End deploy.

(* ===================================================================== *)
(** * Reading responses                                                   *)
(* ===================================================================== *)

(** The value of a field of a JSON response body. *)
Definition json_field (r : Response) (key : string) : option PyVal :=
  match body r with
  | BJson d => d !! key
  | _ => None
  end.

(** The [species] entry of the dictionary a path operation returned. *)
Definition species_returned (r : result Returned) : option PyVal :=
  match r with
  | Ok (RDict d) => d !! "species"
  | _ => None
  end.

(** [needle in hay] on strings. *)
Fixpoint occurs (needle hay : string) : bool :=
  String.prefix needle hay ||
  match hay with
  | EmptyString => false
  | String _ rest => occurs needle rest
  end.

Definition val_strings (v : PyVal) : list string :=
  match v with
  | VStr s => [s]
  | VObj _ s => [s]
  | VInt _ | VFloat _ => []
  end.

(** Every piece of text a response body carries. *)
Definition body_strings (b : Body) : list string :=
  match b with
  | BEmpty => []
  | BJson d => concat (map (fun kv => val_strings kv.2) (map_to_list d))
  | BText s => [s]
  | BErrors fields => fields
  end.

Definition leaks (text : string) (r : Response) : bool :=
  existsb (occurs text) (body_strings (body r)).

(** No event of a trace is a call of the estimator. *)
Definition never_predicts (t : list Event) : Prop :=
  forallb (fun ev => negb (is_predict ev)) t = true.

(* ===================================================================== *)
(** * What a prediction request computes                                  *)
(* ===================================================================== *)

(** The species a class index stands for, with [fallback] outside the
    table. *)
Definition species_of_index (fallback : string) (k : Z) : string :=
  if decide (k = 0) then "setosa"
  else if decide (k = 1) then "versicolor"
  else if decide (k = 2) then "virginica"
  else fallback.

(** The label normalisation both variants perform after the estimator
    has answered, as a function of the raw label: [fallback] is what an
    index outside the table gives. *)
Definition normalise (fallback : RawLabel -> string) (y : RawLabel) : result string :=
  match y with
  | LStr s => Ok s
  | _ =>
      match int_ y with
      | Ok k => Ok (species_of_index (fallback y) k)
      | Raise e => Raise e
      end
  end.

(** What can go wrong once the estimator is called: the call raises, or
    it answers with a label that is no string and that [int] refuses. *)
Definition fails_with (r : result RawLabel) (e : PyExc) : Prop :=
  r = Raise e \/
  exists y, r = Ok y /\ isinstance_str y = false /\ int_ y = Raise e.

Definition is_Ok {A : Type} (r : result A) : bool :=
  match r with Ok _ => true | Raise _ => false end.

(** A value that is text or a float, as opposed to a raw numeric label. *)
Definition text_or_float (v : PyVal) : Prop :=
  match v with
  | VStr _ | VFloat _ => True
  | VInt _ | VObj _ _ => False
  end.

(** The fixed response bodies. *)
Definition alive_response : Response :=
  mkResponse 200 (BJson {[ "status" := VStr "alive" ]}).

Definition ready_response : Response :=
  mkResponse 200 (BJson {[ "status" := VStr "ready" ]}).

Definition banner_response : Response :=
  mkResponse 200 (BJson {[ "message" := VStr "Iris Species Prediction API is running." ]}).

(** The feature matrix and the dictionaries [app.predict] builds. *)
Definition app_X (features : app.IrisInput) : Matrix :=
  [[ app.sepal_length features; app.sepal_width features;
     app.petal_length features; app.petal_width features ]].

Definition app_payload (y : RawLabel) (species : string) : gmap string PyVal :=
  {[ "status" := VStr "success";
     "predicted_label" := val_of_label y;
     "species" := VStr species ]}.

(** The feature matrix, the dictionaries and the log records
    [deploy.predict] builds. *)
Definition deploy_X (input : deploy.Input) : Matrix :=
  [[ deploy.sepal_length input; deploy.sepal_width input;
     deploy.petal_length input; deploy.petal_width input ]].

Definition deploy_payload (env : deploy.Env) (species : string) : gmap string PyVal :=
  {[ "status" := VStr "success";
     "predicted_label" := VStr species;
     "species" := VStr species;
     "latency_ms" := VFloat (deploy.latency_ms env);
     "trace_id" := VStr (deploy.span_trace_id env) ]}.

Definition deploy_error_log (env : deploy.Env) (e : PyExc) : Event :=
  ELogJson "ERROR"
    {[ "event" := GStr "prediction_error";
       "trace_id" := GStr (deploy.span_trace_id env);
       "error" := GStr (str_exc e) ]}.

Definition deploy_success_log (env : deploy.Env) (input : deploy.Input) (species : string) : Event :=
  ELogJson "INFO"
    {[ "event" := GStr "prediction";
       "trace_id" := GStr (deploy.span_trace_id env);
       "input" := GMatrix (deploy_X input);
       "output" := GDict (deploy_payload env species);
       "latency_ms" := GFloat (deploy.latency_ms env);
       "status" := GStr "success" ]}.

(* ===================================================================== *)
(** * Reading traces, serving several requests                            *)
(* ===================================================================== *)

(** How many times the estimator was called. *)
Definition count_predict (t : list Event) : nat :=
  length (List.filter is_predict t).

(** The structured log records of a trace, with their level. *)
Definition log_records (t : list Event) : list (string * gmap string LogVal) :=
  flat_map (fun ev => match ev with
                      | ELogJson level fields => [(level, fields)]
                      | _ => []
                      end) t.

(** The lines written on stdout. *)
Definition printed (t : list Event) : list string :=
  flat_map (fun ev => match ev with EPrint line => [line] | _ => [] end) t.

(** The indices of the label table. *)
Definition in_table (k : Z) : Prop := k = 0 \/ k = 1 \/ k = 2.

(** A raw label the normalisation accepts: a string, or something [int]
    converts. *)
Definition coercible (y : RawLabel) : Prop :=
  isinstance_str y = true \/ exists k, int_ y = Ok k.


(* ===================================================================== *)
(** * Sample estimators and inputs                                        *)
(* ===================================================================== *)

Module Samples.

(** An estimator object that is the outcome it gives on every input. *)
#[export] Instance fixed_model : Estimator (result RawLabel) :=
  fun m _ => (m, m).

(** An estimator that counts its calls and answers with the count. *)
#[export] Instance counting_model : Estimator Z :=
  fun n _ => (Ok (LInt n), n + 1).

(** No conversion at all: only JSON floats are accepted. *)
Definition strict : Json -> option PyFloat := fun _ => None.

(** Integers are converted when they are small enough to be exact. *)
Definition ints_too : Json -> option PyFloat :=
  fun v =>
    match v with
    | JInt 0 => Some (S754_zero false)
    | JInt (Zpos p) => if Z.ltb (Zpos p) (2 ^ 53) then Some (S754_finite false p 0) else None
    | JInt (Zneg p) => if Z.ltb (Zpos p) (2 ^ 53) then Some (S754_finite true p 0) else None
    | _ => None
    end.

(** An artifact is readable when it is not empty; the object it holds
    always answers class 0. *)
Definition unpickle : Bytes -> result (result RawLabel) :=
  fun b =>
    match b with
    | [] => Raise (Exc "EOFError" "Ran out of input")
    | _ => Ok (Ok (LInt 0))
    end.

Definition f2_0 : PyFloat := S754_finite false 1 1.
Definition f0_5 : PyFloat := S754_finite false 1 (-1).
Definition f1_0 : PyFloat := S754_finite false 1 0.
Definition f0_2 : PyFloat := S754_finite false 3602879701896397 (-54).

(** [{"sepal_length": 2.0, "sepal_width": 0.5, "petal_length": 1.0,
      "petal_width": 0.2}] *)
Definition flower : gmap string Json :=
  {[ "sepal_length" := JFloat f2_0; "sepal_width" := JFloat f0_5;
     "petal_length" := JFloat f1_0; "petal_width" := JFloat f0_2 ]}.

(** The same with [NaN] for the first field. *)
Definition flower_nan : gmap string Json :=
  <[ "sepal_length" := JFloat S754_nan ]> flower.

(** A body with [petal_width] missing and a string for [sepal_width]. *)
Definition flower_bad : gmap string Json :=
  {[ "sepal_length" := JFloat f2_0; "sepal_width" := JStr "wide";
     "petal_length" := JFloat f1_0 ]}.

Definition no_cache : app.World :=
  app.mkWorld None false (Ok tt) (Raise (Exc "NotFound" "404 blob not found")).

(** The globals of each variant once the object [m] is loaded. *)
Definition app_loaded (m : result RawLabel) : app.State :=
  app.mkState (Some m) no_cache.

Definition deploy_loaded (m : result RawLabel) : deploy.State :=
  deploy.mkState (Some m) {[ "is_ready" := true; "is_alive" := true ]}.

(** The globals of each variant when the startup load failed. *)
Definition app_degraded : app.State (ModelObj := result RawLabel) :=
  app.mkState None no_cache.

Definition deploy_degraded : deploy.State (ModelObj := result RawLabel) :=
  deploy.mkState None {[ "is_ready" := false; "is_alive" := true ]}.

Definition iris : app.IrisInput := app.mkIrisInput f2_0 f0_5 f1_0 f0_2.
Definition input0 : deploy.Input := deploy.mkInput f2_0 f0_5 f1_0 f0_2.

Definition env0 : deploy.Env :=
  deploy.mkEnv "0af7651916cd43dd8448eb211c80319c" "00000000000000000000000000000000"
    (S754_finite false 3 (-1)) "http://localhost:8000/predict".

Definition env1 : deploy.Env :=
  deploy.mkEnv "4bf92f3577b34da6a3ce929d0e0e4736" "00000000000000000000000000000000"
    (S754_finite false 5 (-2)) "http://localhost:8000/predict".

(** A world with the artifact cached, no key and an unreachable bucket. *)
Definition cached_offline : app.World :=
  app.mkWorld (Some [Byte.x80]) false
    (Raise (Exc "PermissionError" "[Errno 13] Permission denied: 'models'"))
    (Raise (Exc "NotFound" "404 blob not found")).

(** A world with nothing cached, the key in place and the blob in the
    bucket. *)
Definition online : app.World :=
  app.mkWorld None true (Ok tt) (Ok [Byte.x80; Byte.x04]).


(** Globals of [deploy.py] whose flags were emptied. *)
Definition deploy_no_flags : deploy.State (ModelObj := result RawLabel) :=
  deploy.mkState None ∅.

End Samples.

(* ===================================================================== *)
(** * Properties                                                          *)
(* ===================================================================== *)

Import Samples.

(** ** The label tables *)

Lemma label_map_outside (k : Z) :
  k <> 0 -> k <> 1 -> k <> 2 -> app.label_map !! k = None.
Proof.
  intros H0 H1 H2. unfold app.label_map.
  rewrite !lookup_insert_ne by congruence.
  apply lookup_singleton_ne; congruence.
Qed.

Lemma SPECIES_MAP_outside (k : Z) :
  k <> 0 -> k <> 1 -> k <> 2 -> deploy.SPECIES_MAP !! k = None.
Proof.
  intros H0 H1 H2. unfold deploy.SPECIES_MAP.
  rewrite !lookup_insert_ne by congruence.
  apply lookup_singleton_ne; congruence.
Qed.

(** The two variants hold the same table. *)
Lemma tables_agree : app.label_map = deploy.SPECIES_MAP.
Proof. reflexivity. Qed.

Lemma label_map_get (fallback : string) (k : Z) :
  default fallback (app.label_map !! k) = species_of_index fallback k.
Proof.
  unfold species_of_index.
  destruct (decide (k = 0)) as [->|H0]; [reflexivity|].
  destruct (decide (k = 1)) as [->|H1]; [reflexivity|].
  destruct (decide (k = 2)) as [->|H2]; [reflexivity|].
  now rewrite label_map_outside.
Qed.

Lemma SPECIES_MAP_get (fallback : string) (k : Z) :
  default fallback (deploy.SPECIES_MAP !! k) = species_of_index fallback k.
Proof. rewrite <- tables_agree. apply label_map_get. Qed.

(** ** Validation *)

Section ValidationFacts.
Context (coerce : Json -> option PyFloat).

Lemma validate_malformed body :
  malformed coerce body -> exists errs, validate coerce body = inl errs.
Proof.
  destruct body as [b|]; simpl; [|eauto].
  intros (name & Hin & Hnone).
  unfold field_names in Hin. simpl in Hin.
  destruct Hin as [<-|[<-|[<-|[<-|[]]]]]; rewrite ?Hnone;
    repeat (match goal with
            | |- context [match field coerce b ?n with _ => _ end] =>
                destruct (field coerce b n)
            end); eauto.
Qed.

Lemma validate_ok body sl sw pl pw :
  validate coerce body = inr (sl, sw, pl, pw) ->
  exists b, body = Some b /\
    field coerce b "sepal_length" = Some sl /\
    field coerce b "sepal_width" = Some sw /\
    field coerce b "petal_length" = Some pl /\
    field coerce b "petal_width" = Some pw.
Proof.
  destruct body as [b|]; simpl; [|discriminate].
  destruct (field coerce b "sepal_length") eqn:E1; [|discriminate].
  destruct (field coerce b "sepal_width") eqn:E2; [|discriminate].
  destruct (field coerce b "petal_length") eqn:E3; [|discriminate].
  destruct (field coerce b "petal_width") eqn:E4; [|discriminate].
  intros [= <- <- <- <-]. exists b. auto.
Qed.

(** A body that fails validation is malformed: nothing else is refused. *)
Lemma validate_errors body errs :
  validate coerce body = inl errs -> malformed coerce body.
Proof.
  destruct body as [b|]; simpl; [|trivial].
  destruct (field coerce b "sepal_length") eqn:E1;
    [|intros _; exists "sepal_length"; simpl; auto].
  destruct (field coerce b "sepal_width") eqn:E2;
    [|intros _; exists "sepal_width"; simpl; auto].
  destruct (field coerce b "petal_length") eqn:E3;
    [|intros _; exists "petal_length"; simpl; auto].
  destruct (field coerce b "petal_width") eqn:E4;
    [discriminate|intros _; exists "petal_width"; simpl; auto 6].
Qed.

(** A JSON float goes through unchanged, whatever its class. *)
Lemma field_json_float (b : gmap string Json) name x :
  b !! name = Some (JFloat x) -> field coerce b name = Some x.
Proof. unfold field. now intros ->. Qed.
End ValidationFacts.

(** ** How [predict] runs *)

Ltac run_monad :=
  unfold bind, try_except, get, put, emit, lift, ret, raise,
    outcome, final, trace in *; simpl in *.

Section AppRuns.
Context {ModelObj : Type} `{!Estimator ModelObj}.
Implicit Types (st : app.State (ModelObj:=ModelObj)) (features : app.IrisInput).

Lemma app_predict_unloaded st features :
  app.model st = None ->
  app.predict features st =
    (Raise (HTTPException 503 "Model not loaded. Try again later."), st, []).
Proof. intros Hm. unfold app.predict. run_monad. now rewrite Hm. Qed.

Lemma app_predict_loaded st m features :
  app.model st = Some m ->
  app.predict features st =
    let '(r, m') := predict0 m (app_X features) in
    let st' := app.mkState (Some m') (app.fs st) in
    match r with
    | Ok y =>
        match normalise (fun _ => "unknown") y with
        | Ok species => (Ok (RDict (app_payload y species)), st', [EPredict (app_X features)])
        | Raise e =>
            (Raise (HTTPException 500 ("Prediction failed: " +:+ str_exc e)), st',
             [EPredict (app_X features)])
        end
    | Raise e =>
        (Raise (HTTPException 500 ("Prediction failed: " +:+ str_exc e)), st',
         [EPredict (app_X features)])
    end.
Proof.
  intros Hm. unfold app.predict, app.model_predict, app_X. run_monad.
  rewrite Hm. simpl. rewrite Hm.
  destruct (predict0 m _) as [[y|e] m']; simpl; [|reflexivity].
  destruct y as [s|z|[k|e] s]; simpl; try reflexivity;
    now rewrite label_map_get.
Qed.
End AppRuns.

Section DeployRuns.
Context {ModelObj : Type} `{!Estimator ModelObj}.
Implicit Types (st : deploy.State (ModelObj:=ModelObj)) (input : deploy.Input)
  (env : deploy.Env).

Lemma deploy_predict_unloaded st input env :
  deploy.model st = None ->
  deploy.predict input env st =
    (Raise (HTTPException 500 "Prediction failed"), st,
     [deploy_error_log env (Exc "RuntimeError" "Model not loaded")]).
Proof. intros Hm. unfold deploy.predict. run_monad. now rewrite Hm. Qed.

Lemma deploy_predict_loaded st m input env :
  deploy.model st = Some m ->
  deploy.predict input env st =
    let '(r, m') := predict0 m (deploy_X input) in
    let st' := deploy.mkState (Some m') (deploy.app_state st) in
    match r with
    | Ok y =>
        match normalise str_ y with
        | Ok species =>
            (Ok (RDict (deploy_payload env species)), st',
             [EPredict (deploy_X input); deploy_success_log env input species])
        | Raise e =>
            (Raise (HTTPException 500 "Prediction failed"), st',
             [EPredict (deploy_X input); deploy_error_log env e])
        end
    | Raise e =>
        (Raise (HTTPException 500 "Prediction failed"), st',
         [EPredict (deploy_X input); deploy_error_log env e])
    end.
Proof.
  intros Hm. unfold deploy.predict, deploy.model_predict, deploy_X. run_monad.
  rewrite Hm. simpl. rewrite Hm.
  destruct (predict0 m _) as [[y|e] m']; simpl; [|reflexivity].
  destruct y as [s|z|[k|e] s]; simpl; try reflexivity;
    now rewrite SPECIES_MAP_get.
Qed.
End DeployRuns.


(** ** Entries of the payloads *)

Lemma app_payload_species y species :
  app_payload y species !! "species" = Some (VStr species).
Proof. reflexivity. Qed.

Lemma app_payload_predicted_label y species :
  app_payload y species !! "predicted_label" = Some (val_of_label y).
Proof. reflexivity. Qed.

Lemma deploy_payload_species env species :
  deploy_payload env species !! "species" = Some (VStr species).
Proof. reflexivity. Qed.

Lemma deploy_payload_predicted_label env species :
  deploy_payload env species !! "predicted_label" = Some (VStr species).
Proof. reflexivity. Qed.

(** ** Label normalisation *)

Lemma species_of_index_cases fallback k :
  (k = 0 -> species_of_index fallback k = "setosa") /\
  (k = 1 -> species_of_index fallback k = "versicolor") /\
  (k = 2 -> species_of_index fallback k = "virginica") /\
  (k <> 0 -> k <> 1 -> k <> 2 -> species_of_index fallback k = fallback).
Proof.
  unfold species_of_index.
  repeat split; intros; subst; repeat case_decide; congruence.
Qed.

Lemma normalise_str fallback s : normalise fallback (LStr s) = Ok s.
Proof. reflexivity. Qed.

Lemma normalise_index fallback y k :
  isinstance_str y = false -> int_ y = Ok k ->
  normalise fallback y = Ok (species_of_index (fallback y) k).
Proof.
  destruct y as [s|z|i s]; simpl; [discriminate| |].
  - now intros _ [= ->].
  - now intros _ ->.
Qed.

(** C3: after a successful call of the estimator, a raw prediction that
    is a string is the species unchanged; any other raw prediction is
    coerced with [int] and looked up in the table 0 -> setosa,
    1 -> versicolor, 2 -> virginica; an index outside the table gives
    ["unknown"] in [app.py] and the string form of the raw value in
    [deploy.py]. *)
Theorem predict_species_normalised
    {ModelObj : Type} `{!Estimator ModelObj}
    (sta : app.State) (std : deploy.State) (ma ma' md md' : ModelObj)
    (features : app.IrisInput) (input : deploy.Input) (env : deploy.Env)
    (y : RawLabel) :
  app.model sta = Some ma ->
  predict0 ma (app_X features) = (Ok y, ma') ->
  deploy.model std = Some md ->
  predict0 md (deploy_X input) = (Ok y, md') ->
  let species_app := species_returned (outcome (app.predict features sta)) in
  let species_deploy := species_returned (outcome (deploy.predict input env std)) in
  (forall s, y = LStr s ->
     species_app = Some (VStr s) /\ species_deploy = Some (VStr s)) /\
  (forall k, isinstance_str y = false -> int_ y = Ok k ->
     (k = 0 -> species_app = Some (VStr "setosa")
               /\ species_deploy = Some (VStr "setosa")) /\
     (k = 1 -> species_app = Some (VStr "versicolor")
               /\ species_deploy = Some (VStr "versicolor")) /\
     (k = 2 -> species_app = Some (VStr "virginica")
               /\ species_deploy = Some (VStr "virginica")) /\
     (k <> 0 -> k <> 1 -> k <> 2 ->
        species_app = Some (VStr "unknown")
        /\ species_deploy = Some (VStr (str_ y)))).
Proof.
  intros Hma Hpa Hmd Hpd species_app species_deploy.
  subst species_app species_deploy.
  rewrite (app_predict_loaded _ _ _ Hma), Hpa.
  rewrite (deploy_predict_loaded _ _ _ _ Hmd), Hpd.
  cbv zeta. split.
  - intros s ->. rewrite !normalise_str. split; reflexivity.
  - intros k Hstr Hint. rewrite !(normalise_index _ _ _ Hstr Hint).
    unfold outcome, species_returned. cbn [fst].
    rewrite app_payload_species, deploy_payload_species.
    pose proof (species_of_index_cases "unknown" k) as (A0 & A1 & A2 & A3).
    pose proof (species_of_index_cases (str_ y) k) as (D0 & D1 & D2 & D3).
    repeat split; intros; rewrite ?A0, ?A1, ?A2, ?A3, ?D0, ?D1, ?D2, ?D3 by assumption;
      reflexivity.
Qed.

(** The scenario: class 0 gives setosa in both variants, class 7 gives
    ["unknown"] in one and ["7"] in the other. *)
Lemma predict_species_normalised_witness :
  species_returned (outcome (app.predict iris (app_loaded (Ok (LInt 7)))))
    = Some (VStr "unknown")
  /\ species_returned (outcome (deploy.predict input0 env0 (deploy_loaded (Ok (LInt 7)))))
    = Some (VStr "7").
Proof.
  refine ((fun H => proj2 (proj2 (proj2 (proj2 H 7 eq_refl eq_refl))) _ _ _)
            (predict_species_normalised
               (app_loaded (Ok (LInt 7))) (deploy_loaded (Ok (LInt 7)))
               (Ok (LInt 7)) (Ok (LInt 7)) (Ok (LInt 7)) (Ok (LInt 7))
               iris input0 env0 (LInt 7)
               eq_refl eq_refl eq_refl eq_refl)); discriminate.
Defined.

(** ** A request while the model is not loaded *)

(** C1, as the code has it: a [POST /predict] that passes validation
    while the model is not loaded is refused without a call of the
    estimator and leaves the globals alone; [app.py] answers 503,
    [deploy.py] raises [RuntimeError] inside its [try] block, logs it
    and answers with the generic 500. *)
Theorem predict_not_loaded_refused
    {ModelObj : Type} `{!Estimator ModelObj} (coerce : Json -> option PyFloat)
    (sta : app.State) (std : deploy.State) (env : deploy.Env)
    (body : option (gmap string Json)) (sl sw pl pw : PyFloat) :
  validate coerce body = inr (sl, sw, pl, pw) ->
  app.model sta = None ->
  deploy.model std = None ->
  app.handle coerce (app.POST_predict body) sta
    = (http_error 503 "Model not loaded. Try again later.", sta, [])
  /\ deploy.handle coerce env (deploy.POST_predict body) std
    = (http_error 500 "Prediction failed", std,
       [deploy_error_log env (Exc "RuntimeError" "Model not loaded")])
  /\ never_predicts (deploy.handle coerce env (deploy.POST_predict body) std).2.
Proof.
  intros Hv Ha Hd. unfold app.handle, deploy.handle. rewrite Hv.
  rewrite (app_predict_unloaded _ _ Ha), (deploy_predict_unloaded _ _ _ Hd).
  repeat split.
Qed.

Lemma predict_not_loaded_refused_witness :
  app.handle strict (app.POST_predict (Some flower)) app_degraded
    = (http_error 503 "Model not loaded. Try again later.", app_degraded, [])
  /\ deploy.handle strict env0 (deploy.POST_predict (Some flower)) deploy_degraded
    = (http_error 500 "Prediction failed", deploy_degraded,
       [deploy_error_log env0 (Exc "RuntimeError" "Model not loaded")])
  /\ never_predicts
       (deploy.handle strict env0 (deploy.POST_predict (Some flower)) deploy_degraded).2.
Proof.
  apply (predict_not_loaded_refused strict app_degraded deploy_degraded env0
           (Some flower) f2_0 f0_5 f1_0 f0_2); reflexivity.
Defined.

(** [deploy.py] with no model loaded answers a well-formed request with
    500, not 503. *)
Lemma deploy_not_loaded_is_500 :
  deploy.model deploy_degraded = None
  /\ status_code
       (deploy.handle strict env0 (deploy.POST_predict (Some flower)) deploy_degraded).1.1
     = 500
  /\ status_code
       (deploy.handle strict env0 (deploy.POST_predict (Some flower)) deploy_degraded).1.1
     <> 503.
Proof. repeat split. discriminate. Qed.

(** ** A failure inside [predict] *)

Section Failures.
Context {ModelObj : Type} `{!Estimator ModelObj}.

Lemma app_predict_failure (st : app.State) m features e :
  app.model st = Some m ->
  fails_with (predict0 m (app_X features)).1 e ->
  outcome (app.predict features st)
    = Raise (HTTPException 500 ("Prediction failed: " +:+ str_exc e)).
Proof.
  intros Hm Hf. rewrite (app_predict_loaded _ _ _ Hm).
  destruct (predict0 m (app_X features)) as [r m']. simpl in Hf.
  destruct Hf as [->|(y & -> & Hstr & Hint)]; [reflexivity|].
  destruct y as [s|z|i s]; simpl in *; try discriminate.
  now rewrite Hint.
Qed.

Lemma deploy_predict_failure (st : deploy.State) m input env e :
  deploy.model st = Some m ->
  fails_with (predict0 m (deploy_X input)).1 e ->
  outcome (deploy.predict input env st) = Raise (HTTPException 500 "Prediction failed")
  /\ In (deploy_error_log env e) (trace (deploy.predict input env st)).
Proof.
  intros Hm Hf. rewrite (deploy_predict_loaded _ _ _ _ Hm).
  destruct (predict0 m (deploy_X input)) as [r m']. simpl in Hf.
  destruct Hf as [->|(y & -> & Hstr & Hint)]; [simpl; auto|].
  destruct y as [s|z|i s]; simpl in *; try discriminate.
  rewrite Hint. simpl. auto.
Qed.

(** Whatever happens, [deploy.predict] returns a dictionary or raises the
    one fixed [HTTPException]. *)
Lemma deploy_predict_outcomes (st : deploy.State) input env :
  (exists d, outcome (deploy.predict input env st) = Ok (RDict d))
  \/ outcome (deploy.predict input env st) = Raise (HTTPException 500 "Prediction failed").
Proof.
  destruct (deploy.model st) as [m|] eqn:Hm.
  - rewrite (deploy_predict_loaded _ _ _ _ Hm).
    destruct (predict0 m (deploy_X input)) as [[y|e] m']; [|now right].
    destruct (normalise str_ y); [left; eauto | now right].
  - rewrite (deploy_predict_unloaded _ _ _ Hm). now right.
Qed.
End Failures.

(** C2, as the code has it: when the estimator call or the [int]
    coercion inside [predict] raises, both variants answer 500; in
    [deploy.py] the body is the fixed ["Prediction failed"] and the text
    of the exception only goes to the log, as it does in
    [exception_handler], whose body is fixed up to the trace id; in
    [app.py] the detail is ["Prediction failed: "] followed by the text of
    the exception. *)
Theorem inference_failure_responses
    {ModelObj : Type} `{!Estimator ModelObj} (coerce : Json -> option PyFloat)
    (sta : app.State) (std : deploy.State) (ma md : ModelObj) (env : deploy.Env)
    (body : option (gmap string Json)) (sl sw pl pw : PyFloat) (e : PyExc) :
  validate coerce body = inr (sl, sw, pl, pw) ->
  app.model sta = Some ma ->
  deploy.model std = Some md ->
  fails_with (predict0 ma [[sl; sw; pl; pw]]).1 e ->
  fails_with (predict0 md [[sl; sw; pl; pw]]).1 e ->
  (app.handle coerce (app.POST_predict body) sta).1.1
    = http_error 500 ("Prediction failed: " +:+ str_exc e)
  /\ (deploy.handle coerce env (deploy.POST_predict body) std).1.1
    = http_error 500 "Prediction failed"
  /\ In (deploy_error_log env e)
        (deploy.handle coerce env (deploy.POST_predict body) std).2
  /\ forall exc,
       outcome (deploy.exception_handler env exc std)
       = Ok (mkResponse 500
               (BJson {[ "detail" := VStr "Internal Server Error";
                         "trace_id" := VStr (deploy.handler_trace_id env) ]})).
Proof.
  intros Hv Ha Hd Hfa Hfd. unfold app.handle, deploy.handle. rewrite Hv.
  pose proof (app_predict_failure sta ma (app.mkIrisInput sl sw pl pw) e Ha Hfa) as Hpa.
  pose proof (deploy_predict_failure std md (deploy.mkInput sl sw pl pw) env e Hd Hfd)
    as [Hpd Hlog].
  unfold outcome, trace in *.
  destruct (app.predict _ sta) as [[ra sa] ta].
  destruct (deploy.predict _ env std) as [[rd sd] td].
  simpl in *. subst ra rd. simpl. repeat split; auto.
Qed.

Lemma inference_failure_responses_witness :
  (app.handle strict (app.POST_predict (Some flower))
     (app_loaded (Raise (Exc "ValueError" "boom")))).1.1
    = http_error 500 "Prediction failed: boom"
  /\ (deploy.handle strict env0 (deploy.POST_predict (Some flower))
        (deploy_loaded (Raise (Exc "ValueError" "boom")))).1.1
    = http_error 500 "Prediction failed".
Proof.
  pose proof (inference_failure_responses strict
                (app_loaded (Raise (Exc "ValueError" "boom")))
                (deploy_loaded (Raise (Exc "ValueError" "boom")))
                (Raise (Exc "ValueError" "boom")) (Raise (Exc "ValueError" "boom"))
                env0 (Some flower) f2_0 f0_5 f1_0 f0_2 (Exc "ValueError" "boom")
                eq_refl eq_refl eq_refl (or_introl eq_refl) (or_introl eq_refl))
    as (Ha & Hd & _).
  exact (conj Ha Hd).
Defined.

(** [app.py] sends the text of the exception to the caller: the answer
    to a request on which the estimator raises ["boom"] is a 500 whose
    body contains ["boom"], and a different text gives a different body. *)
Lemma app_failure_leaks_exception_text :
  let answer text :=
    (app.handle strict (app.POST_predict (Some flower))
       (app_loaded (Raise (Exc "ValueError" text)))).1.1 in
  status_code (answer "boom") = 500
  /\ leaks "boom" (answer "boom") = true
  /\ answer "boom" <> answer "bang".
Proof.
  cbv zeta. split; [reflexivity|]. split; [vm_compute; reflexivity|].
  intros H. apply (f_equal (fun r => json_field r "detail")) in H.
  vm_compute in H. discriminate H.
Qed.

(** ** Startup *)

Section Startup.
Context {ModelObj : Type} `{!Estimator ModelObj}.
Context (joblib_load : Bytes -> result ModelObj).
Context (coerce : Json -> option PyFloat).

(** [on_startup] returns, whatever [load_model] did. *)
Lemma on_startup_returns (st : app.State) :
  outcome (app.on_startup joblib_load st) = Ok tt.
Proof.
  unfold app.on_startup, outcome, try_except, bind.
  destruct (app.load_model joblib_load st) as [[[m|e] s1] t1]; reflexivity.
Qed.

Lemma on_startup_failed (st : app.State) e :
  outcome (app.load_model joblib_load st) = Raise e ->
  app.model (final (app.on_startup joblib_load st)) = None
  /\ In (EPrint ("⚠️ Could not load model on startup: " +:+ str_exc e))
        (trace (app.on_startup joblib_load st)).
Proof.
  unfold app.on_startup, outcome, final, trace, try_except, bind.
  destruct (app.load_model joblib_load st) as [[[m|e'] s1] t1]; simpl;
    [discriminate|].
  intros [= ->]. split; [reflexivity|].
  apply in_or_app. right. simpl. auto.
Qed.


(** [startup_event] in closed form. *)
Lemma startup_event_run (file : option Bytes) (st : deploy.State) :
  deploy.startup_event joblib_load file st =
    match deploy.joblib_load_path joblib_load file with
    | Ok m =>
        (Ok tt, deploy.mkState (Some m) (<["is_ready" := true]> (deploy.app_state st)),
         [ELog "INFO" "Loading model from models/model.pkl ...";
          ELog "INFO" "✅ Model loaded."])
    | Raise e =>
        (Ok tt, deploy.mkState (deploy.model st)
                  (<["is_ready" := false]> (deploy.app_state st)),
         [ELog "INFO" "Loading model from models/model.pkl ...";
          ELog "ERROR" ("❌ Failed to load model: " +:+ str_exc e)])
    end.
Proof.
  unfold deploy.startup_event, deploy.set_model, deploy.set_flag. run_monad.
  destruct (deploy.joblib_load_path joblib_load file); reflexivity.
Qed.

(** ** The health checks *)

Lemma live_check_alive (st : deploy.State) env :
  deploy.app_state st !! "is_alive" = Some true ->
  deploy.handle coerce env deploy.GET_live_check st = (alive_response, st, []).
Proof.
  intros Hl. unfold deploy.handle, deploy.live_check, deploy.get_flag. run_monad.
  now rewrite Hl.
Qed.

Lemma ready_check_flag (st : deploy.State) env (ready : bool) :
  deploy.app_state st !! "is_ready" = Some ready ->
  deploy.handle coerce env deploy.GET_ready_check st
    = (if ready then ready_response else mkResponse 503 BEmpty, st, []).
Proof.
  intros Hr. unfold deploy.handle, deploy.ready_check, deploy.get_flag. run_monad.
  rewrite Hr. now destruct ready.
Qed.

Lemma root_banner (st : app.State) :
  app.handle coerce app.GET_root st = (banner_response, st, []).
Proof. reflexivity. Qed.

(** ** What a request leaves of the globals of [deploy.py] *)

Lemma deploy_predict_globals (st : deploy.State) input env :
  deploy.app_state (final (deploy.predict input env st)) = deploy.app_state st
  /\ (deploy.model (final (deploy.predict input env st)) = None
      <-> deploy.model st = None).
Proof.
  destruct (deploy.model st) as [m|] eqn:Hm.
  - rewrite (deploy_predict_loaded _ _ _ _ Hm).
    destruct (predict0 m (deploy_X input)) as [[y|e] m']; simpl.
    + destruct (normalise str_ y); simpl; split; try reflexivity;
        split; discriminate.
    + split; [reflexivity|]. split; discriminate.
  - rewrite (deploy_predict_unloaded _ _ _ Hm). simpl. tauto.
Qed.

Lemma deploy_finish_state env
    (x : result Returned * deploy.State (ModelObj := ModelObj) * list Event) :
  (deploy.finish env x).1.2 = x.1.2.
Proof. destruct x as [[[r|[sc d|cls text]] st] t]; reflexivity. Qed.

Lemma deploy_handle_globals env req (st : deploy.State) :
  deploy.app_state (deploy.handle coerce env req st).1.2 = deploy.app_state st
  /\ (deploy.model (deploy.handle coerce env req st).1.2 = None
      <-> deploy.model st = None).
Proof.
  destruct req as [| |body]; unfold deploy.handle.
  - rewrite deploy_finish_state. unfold deploy.live_check, deploy.get_flag.
    run_monad. destruct (deploy.app_state st !! "is_alive") as [[|]|]; simpl; tauto.
  - rewrite deploy_finish_state. unfold deploy.ready_check, deploy.get_flag.
    run_monad. destruct (deploy.app_state st !! "is_ready") as [[|]|]; simpl; tauto.
  - destruct (validate coerce body) as [errs|[[[sl sw] pl] pw]]; [simpl; tauto|].
    rewrite deploy_finish_state. apply deploy_predict_globals.
Qed.

(** The flags and the model in every state the process goes through. *)
Lemma reachable_globals file (st : deploy.State) :
  deploy.reachable joblib_load coerce file st ->
  deploy.app_state st !! "is_alive" = Some true
  /\ deploy.app_state st !! "is_ready"
     = Some (is_Ok (deploy.joblib_load_path joblib_load file))
  /\ (deploy.model st = None
      <-> is_Ok (deploy.joblib_load_path joblib_load file) = false).
Proof.
  induction 1 as [|st env req Hreach (IHa & IHr & IHm)].
  - rewrite startup_event_run.
    destruct (deploy.joblib_load_path joblib_load file) as [m|e];
      unfold final; simpl.
    + rewrite lookup_insert_ne by discriminate.
      rewrite lookup_insert_eq. repeat split; try reflexivity; discriminate.
    + rewrite lookup_insert_ne by discriminate.
      rewrite lookup_insert_eq. repeat split; reflexivity.
  - destruct (deploy_handle_globals env req st) as [-> Hmodel].
    rewrite Hmodel. auto.
Qed.
End Startup.

(** ** The ways [load_model] fails *)

Section LoadModel.
Context {ModelObj : Type} `{!Estimator ModelObj}.
Context (joblib_load : Bytes -> result ModelObj).

Lemma load_model_cached (st : app.State) b :
  app.local_model (app.fs st) = Some b ->
  app.load_model joblib_load st
    = match joblib_load b with
      | Ok m => (Ok m, st, [EPrint "✅ Model loaded into memory."])
      | Raise e => (Raise e, st, [])
      end.
Proof.
  intros Hc. unfold app.load_model. run_monad. rewrite Hc. simpl. rewrite Hc.
  simpl. destruct (joblib_load b); reflexivity.
Qed.

Lemma load_model_no_credentials (st : app.State) :
  app.local_model (app.fs st) = None ->
  app.mkdir_models (app.fs st) = Ok tt ->
  app.key_present (app.fs st) = false ->
  outcome (app.load_model joblib_load st)
    = Raise (Exc "FileNotFoundError"
               "Service account JSON 'github-dvc-key.json' not found in current dir.").
Proof.
  intros Hc Hd Hk. unfold app.load_model, app.download_model_from_gcs. run_monad.
  rewrite Hc. simpl. rewrite Hd. simpl. rewrite Hk. reflexivity.
Qed.

Lemma load_model_fetch_fails (st : app.State) e :
  app.local_model (app.fs st) = None ->
  app.mkdir_models (app.fs st) = Ok tt ->
  app.key_present (app.fs st) = true ->
  app.gcs_blob (app.fs st) = Raise e ->
  outcome (app.load_model joblib_load st) = Raise e.
Proof.
  intros Hc Hd Hk Hg. unfold app.load_model, app.download_model_from_gcs. run_monad.
  rewrite Hc. simpl. rewrite Hd. simpl. rewrite Hk. simpl. rewrite Hg. reflexivity.
Qed.

(** After a fetch the artifact is in the local cache, and it is the
    fetched bytes that are deserialized. *)
Lemma load_model_fetched (st : app.State) blob :
  app.local_model (app.fs st) = None ->
  app.mkdir_models (app.fs st) = Ok tt ->
  app.key_present (app.fs st) = true ->
  app.gcs_blob (app.fs st) = Ok blob ->
  outcome (app.load_model joblib_load st) = joblib_load blob
  /\ app.local_model (app.fs (final (app.load_model joblib_load st))) = Some blob.
Proof.
  intros Hc Hd Hk Hg.
  unfold app.load_model, app.download_model_from_gcs, app.write_local_model.
  run_monad.
  rewrite Hc. simpl. rewrite Hd. simpl. rewrite Hk. simpl. rewrite Hg. simpl.
  destruct (joblib_load blob); simpl; auto.
Qed.
End LoadModel.

(** C4: when the model load at startup fails, the startup handler of
    either variant returns normally, reports the failure on stdout or in
    the log, and leaves the model [None] (and [is_ready] false); after
    that the banner and [/live_check] are served, and [/predict] is
    answered without success and without a call of the estimator. *)
Theorem startup_failure_contained
    {ModelObj : Type} `{!Estimator ModelObj}
    (joblib_load : Bytes -> result ModelObj) (coerce : Json -> option PyFloat)
    (w : app.World) (file : option Bytes) (env : deploy.Env) (ea ed : PyExc) :
  outcome (app.load_model joblib_load (app.boot w)) = Raise ea ->
  deploy.joblib_load_path joblib_load file = Raise ed ->
  let sa := app.on_startup joblib_load (app.boot w) in
  let sd := deploy.startup_event joblib_load file deploy.boot in
  (outcome sa = Ok tt /\ outcome sd = Ok tt)
  /\ (app.model (final sa) = None
      /\ deploy.model (final sd) = None
      /\ deploy.app_state (final sd) !! "is_ready" = Some false)
  /\ (In (EPrint ("⚠️ Could not load model on startup: " +:+ str_exc ea)) (trace sa)
      /\ In (ELog "ERROR" ("❌ Failed to load model: " +:+ str_exc ed)) (trace sd))
  /\ ((app.handle coerce app.GET_root (final sa)).1.1 = banner_response
      /\ (deploy.handle coerce env deploy.GET_live_check (final sd)).1.1 = alive_response)
  /\ (forall body,
        let ra := app.handle coerce (app.POST_predict body) (final sa) in
        let rd := deploy.handle coerce env (deploy.POST_predict body) (final sd) in
        status_code ra.1.1 <> 200 /\ never_predicts ra.2
        /\ status_code rd.1.1 <> 200 /\ never_predicts rd.2).
Proof.
  intros Ha Hd sa sd.
  destruct (on_startup_failed joblib_load (app.boot w) ea Ha) as [Hma Hlog].
  assert (Hsd : sd = (Ok tt,
                      deploy.mkState None
                        (<["is_ready" := false]>
                           {[ "is_ready" := false; "is_alive" := true ]}),
                      [ELog "INFO" "Loading model from models/model.pkl ...";
                       ELog "ERROR" ("❌ Failed to load model: " +:+ str_exc ed)])).
  { subst sd. rewrite startup_event_run, Hd. reflexivity. }
  assert (Hmd : deploy.model (final sd) = None) by now rewrite Hsd.
  split; [split; [apply on_startup_returns | now rewrite Hsd]|].
  split; [repeat split; [exact Hma | exact Hmd | now rewrite Hsd]|].
  split; [split; [exact Hlog | rewrite Hsd; simpl; auto]|].
  split; [split; [reflexivity | now rewrite Hsd]|].
  intros body ra rd. subst ra rd. unfold app.handle, deploy.handle.
  destruct (validate coerce body) as [errs|[[[sl sw] pl] pw]].
  - simpl. repeat split; discriminate.
  - rewrite (app_predict_unloaded _ _ Hma), (deploy_predict_unloaded _ _ _ Hmd).
    simpl. repeat split; discriminate.
Qed.

(** No cached artifact and no service-account key for [app.py]; no
    [models/model.pkl] for [deploy.py]. *)
Lemma startup_failure_contained_witness :
  app.model (final (app.on_startup unpickle (app.boot no_cache))) = None
  /\ deploy.model (final (deploy.startup_event unpickle None deploy.boot)) = None
  /\ deploy.app_state (final (deploy.startup_event unpickle None deploy.boot))
       !! "is_ready" = Some false.
Proof.
  exact (proj1 (proj2
    (startup_failure_contained unpickle strict no_cache None env0
       (Exc "FileNotFoundError"
          "Service account JSON 'github-dvc-key.json' not found in current dir.")
       (Exc "FileNotFoundError"
          "[Errno 2] No such file or directory: 'models/model.pkl'")
       eq_refl eq_refl))).
Defined.

(** ** Readiness and liveness *)

(** C5: in every state the process of [deploy.py] goes through,
    [/ready_check] answers 200 ["ready"] exactly when the load at
    startup succeeded and 503 otherwise; when the load failed,
    [/ready_check] is 503 while [/live_check] still answers ["alive"]. *)
Theorem ready_check_iff_loaded
    {ModelObj : Type} `{!Estimator ModelObj}
    (joblib_load : Bytes -> result ModelObj) (coerce : Json -> option PyFloat)
    (file : option Bytes) (st : deploy.State) (env : deploy.Env) :
  deploy.reachable joblib_load coerce file st ->
  let ready := (deploy.handle coerce env deploy.GET_ready_check st).1.1 in
  let live := (deploy.handle coerce env deploy.GET_live_check st).1.1 in
  (ready = ready_response
     <-> exists m, deploy.joblib_load_path joblib_load file = Ok m)
  /\ ((forall m, deploy.joblib_load_path joblib_load file <> Ok m) ->
      status_code ready = 503 /\ ready = mkResponse 503 BEmpty /\ live = alive_response)
  /\ (ready = ready_response \/ ready = mkResponse 503 BEmpty).
Proof.
  intros Hreach ready live.
  destruct (reachable_globals joblib_load coerce file st Hreach) as (Hl & Hr & _).
  subst ready live.
  rewrite (ready_check_flag coerce st env _ Hr), (live_check_alive coerce st env Hl).
  simpl. destruct (deploy.joblib_load_path joblib_load file) as [m|e]; simpl.
  - split; [split; eauto|]. split; [|auto].
    intros Hno. now destruct (Hno m).
  - split; [split; [discriminate | intros [m Hm]; discriminate]|]. auto.
Qed.

(** With the artifact missing the service is alive and not ready, also
    after a prediction request. *)
Lemma ready_check_iff_loaded_witness :
  let st :=
    (deploy.handle strict env0 (deploy.POST_predict (Some flower))
       (final (deploy.startup_event unpickle None deploy.boot))).1.2 in
  (deploy.handle strict env1 deploy.GET_ready_check st).1.1 = mkResponse 503 BEmpty
  /\ (deploy.handle strict env1 deploy.GET_live_check st).1.1 = alive_response.
Proof.
  cbv zeta.
  refine ((fun H => proj2 (proj1 (proj2 H) _))
            (ready_check_iff_loaded unpickle strict None _ env1
               (deploy.reach_request unpickle strict None _ env0
                  (deploy.POST_predict (Some flower))
                  (deploy.reach_startup unpickle strict None)))).
  intros m. discriminate.
Defined.

(** C6: in every state the process of [deploy.py] goes through, whether
    the load succeeded or not, [is_alive] is true and [/live_check]
    answers 200 with [{"status": "alive"}]. *)
Theorem is_alive_always
    {ModelObj : Type} `{!Estimator ModelObj}
    (joblib_load : Bytes -> result ModelObj) (coerce : Json -> option PyFloat)
    (file : option Bytes) (st : deploy.State) :
  deploy.reachable joblib_load coerce file st ->
  deploy.app_state st !! "is_alive" = Some true
  /\ forall env,
       deploy.handle coerce env deploy.GET_live_check st = (alive_response, st, []).
Proof.
  intros Hreach.
  destruct (reachable_globals joblib_load coerce file st Hreach) as (Hl & _ & _).
  split; [exact Hl|]. intros env. now apply live_check_alive.
Qed.

(** A readable artifact, then a prediction and a readiness check. *)
Lemma is_alive_always_witness :
  let st :=
    (deploy.handle strict env1 deploy.GET_ready_check
       (deploy.handle strict env0 (deploy.POST_predict (Some flower))
          (final (deploy.startup_event unpickle (Some [Byte.x80]) deploy.boot))).1.2).1.2 in
  deploy.app_state st !! "is_alive" = Some true
  /\ forall env,
       deploy.handle strict env deploy.GET_live_check st = (alive_response, st, []).
Proof.
  cbv zeta.
  apply (is_alive_always unpickle strict (Some [Byte.x80])).
  apply deploy.reach_request, deploy.reach_request, deploy.reach_startup.
Defined.

(** ** Malformed bodies *)

Section Malformed.
Context (coerce : Json -> option PyFloat).

Lemma missing_field_malformed (b : gmap string Json) name :
  In name field_names -> b !! name = None -> malformed coerce (Some b).
Proof. intros Hin Hb. exists name. unfold field. now rewrite Hb. Qed.

Lemma unparseable_field_malformed (b : gmap string Json) name v :
  In name field_names -> b !! name = Some v -> validate_float coerce v = None ->
  malformed coerce (Some b).
Proof. intros Hin Hb Hv. exists name. unfold field. now rewrite Hb. Qed.

Lemma errors_name_bad (b : gmap string Json) name :
  In name field_names -> field coerce b name = None -> In name (errors coerce b).
Proof.
  intros Hin Hf. unfold errors. apply filter_In. split; [exact Hin|].
  unfold bad_field. now rewrite Hf.
Qed.

Lemma validate_malformed_errors body :
  malformed coerce body ->
  exists errs, validate coerce body = inl errs /\ errs <> [].
Proof.
  intros Hbad. destruct (validate_malformed coerce body Hbad) as [errs Hv].
  exists errs. split; [exact Hv|].
  destruct body as [b|]; simpl in *.
  - destruct Hbad as (name & Hin & Hf).
    pose proof (errors_name_bad b name Hin Hf) as Hmem.
    destruct (field coerce b "sepal_length"), (field coerce b "sepal_width"),
             (field coerce b "petal_length"), (field coerce b "petal_width");
      try discriminate; injection Hv as <-; intros Hnil; rewrite Hnil in Hmem;
      destruct Hmem.
  - injection Hv as <-. discriminate.
Qed.
End Malformed.

(** C7: a [POST /predict] whose body is malformed (a field is missing or
    does not parse as a float) is answered with 422 and the names of the
    offending fields, in both variants; the path operation does not run:
    no call of the estimator, no effect at all, the globals unchanged. *)
Theorem malformed_body_rejected
    {ModelObj : Type} `{!Estimator ModelObj} (coerce : Json -> option PyFloat)
    (sta : app.State) (std : deploy.State) (env : deploy.Env)
    (body : option (gmap string Json)) :
  malformed coerce body ->
  exists errs,
    errs <> []
    /\ app.handle coerce (app.POST_predict body) sta = (unprocessable errs, sta, [])
    /\ deploy.handle coerce env (deploy.POST_predict body) std
       = (unprocessable errs, std, [])
    /\ status_code (unprocessable errs) = 422
    /\ never_predicts (app.handle coerce (app.POST_predict body) sta).2
    /\ never_predicts (deploy.handle coerce env (deploy.POST_predict body) std).2.
Proof.
  intros Hbad.
  destruct (validate_malformed_errors coerce body Hbad) as (errs & Hv & Hne).
  exists errs. unfold app.handle, deploy.handle. rewrite Hv.
  repeat split. exact Hne.
Qed.

(** [petal_width] is missing and [sepal_width] is the string ["wide"]:
    both are reported, and the loaded estimator is not called. *)
Lemma malformed_body_rejected_witness :
  exists errs,
    errs <> []
    /\ app.handle ints_too (app.POST_predict (Some flower_bad)) (app_loaded (Ok (LInt 0)))
       = (unprocessable errs, app_loaded (Ok (LInt 0)), [])
    /\ deploy.handle ints_too env0 (deploy.POST_predict (Some flower_bad))
         (deploy_loaded (Ok (LInt 0)))
       = (unprocessable errs, deploy_loaded (Ok (LInt 0)), [])
    /\ status_code (unprocessable errs) = 422
    /\ never_predicts
         (app.handle ints_too (app.POST_predict (Some flower_bad))
            (app_loaded (Ok (LInt 0)))).2
    /\ never_predicts
         (deploy.handle ints_too env0 (deploy.POST_predict (Some flower_bad))
            (deploy_loaded (Ok (LInt 0)))).2.
Proof.
  apply (malformed_body_rejected ints_too (app_loaded (Ok (LInt 0)))
           (deploy_loaded (Ok (LInt 0))) env0 (Some flower_bad)).
  exists "petal_width". split; [simpl; auto 6 | reflexivity].
Defined.

Example flower_bad_errors :
  errors ints_too flower_bad = ["sepal_width"; "petal_width"].
Proof. reflexivity. Qed.

(** ** The feature vector *)

(** C8, as the code has it: a feature vector handed to the estimator is
    one row of exactly four floats, the validated [sepal_length],
    [sepal_width], [petal_length] and [petal_width] in this order; a
    float in the body goes through validation as it is, finite or not. *)
Theorem feature_vector_is_validated_fields
    {ModelObj : Type} `{!Estimator ModelObj} (coerce : Json -> option PyFloat)
    (sta : app.State) (std : deploy.State) (env : deploy.Env)
    (body : option (gmap string Json)) (X : Matrix) :
  In (EPredict X) (app.handle coerce (app.POST_predict body) sta).2
  \/ In (EPredict X) (deploy.handle coerce env (deploy.POST_predict body) std).2 ->
  exists b sl sw pl pw,
    body = Some b
    /\ field coerce b "sepal_length" = Some sl
    /\ field coerce b "sepal_width" = Some sw
    /\ field coerce b "petal_length" = Some pl
    /\ field coerce b "petal_width" = Some pw
    /\ X = [[sl; sw; pl; pw]]
    /\ (forall name x, b !! name = Some (JFloat x) -> field coerce b name = Some x).
Proof.
  unfold app.handle, deploy.handle.
  destruct (validate coerce body) as [errs|[[[sl sw] pl] pw]] eqn:Hv.
  - simpl. tauto.
  - destruct (validate_ok coerce body sl sw pl pw Hv) as (b & -> & H1 & H2 & H3 & H4).
    intros Hin. exists b, sl, sw, pl, pw.
    repeat (split; [assumption || reflexivity|]).
    split; [|intros name x; apply field_json_float].
    destruct Hin as [Hin|Hin].
    + destruct (app.model sta) as [m|] eqn:Hm.
      * rewrite (app_predict_loaded _ _ _ Hm) in Hin.
        destruct (predict0 m _) as [[y|e] m']; simpl in Hin.
        -- destruct (normalise _ y); simpl in Hin;
             destruct Hin as [[= <-]|[]]; reflexivity.
        -- destruct Hin as [[= <-]|[]]; reflexivity.
      * rewrite (app_predict_unloaded _ _ Hm) in Hin. destruct Hin.
    + destruct (deploy.model std) as [m|] eqn:Hm.
      * rewrite (deploy_predict_loaded _ _ _ _ Hm) in Hin.
        destruct (predict0 m _) as [[y|e] m']; simpl in Hin.
        -- destruct (normalise _ y); simpl in Hin;
             destruct Hin as [[= <-]|[Hin|[]]]; try reflexivity; discriminate Hin.
        -- destruct Hin as [[= <-]|[Hin|[]]]; try reflexivity; discriminate Hin.
      * rewrite (deploy_predict_unloaded _ _ _ Hm) in Hin.
        destruct Hin as [Hin|[]]. discriminate Hin.
Qed.

Lemma feature_vector_is_validated_fields_witness :
  exists b sl sw pl pw,
    Some flower = Some b
    /\ field strict b "sepal_length" = Some sl
    /\ field strict b "sepal_width" = Some sw
    /\ field strict b "petal_length" = Some pl
    /\ field strict b "petal_width" = Some pw
    /\ [[f2_0; f0_5; f1_0; f0_2]] = [[sl; sw; pl; pw]]
    /\ (forall name x, b !! name = Some (JFloat x) -> field strict b name = Some x).
Proof.
  apply (feature_vector_is_validated_fields strict (app_loaded (Ok (LInt 0)))
           (deploy_loaded (Ok (LInt 0))) env0 (Some flower) [[f2_0; f0_5; f1_0; f0_2]]).
  left. simpl. left. reflexivity.
Defined.

(** A body whose [sepal_length] is NaN passes validation in both
    variants, is answered with 200, and the estimator is called on a
    vector that holds the NaN. *)
Lemma nan_reaches_the_estimator :
  let ra := app.handle strict (app.POST_predict (Some flower_nan))
              (app_loaded (Ok (LInt 0))) in
  let rd := deploy.handle strict env0 (deploy.POST_predict (Some flower_nan))
              (deploy_loaded (Ok (LInt 0))) in
  validate strict (Some flower_nan) = inr (S754_nan, f0_5, f1_0, f0_2)
  /\ status_code ra.1.1 = 200
  /\ status_code rd.1.1 = 200
  /\ In (EPredict [[S754_nan; f0_5; f1_0; f0_2]]) ra.2
  /\ In (EPredict [[S754_nan; f0_5; f1_0; f0_2]]) rd.2
  /\ forallb is_finite [S754_nan; f0_5; f1_0; f0_2] = false.
Proof. vm_compute. repeat split; auto. Qed.

(** ** Repeating a request *)

Section Stateless.
Context {ModelObj : Type} `{!Estimator ModelObj}.
Context (coerce : Json -> option PyFloat).
(** The estimator's [predict] leaves the model object as it found it. *)
Hypothesis stateless : forall (m : ModelObj) (X : Matrix), (predict0 m X).2 = m.

Lemma app_predict_stateless (st : app.State) features :
  final (app.predict features st) = st.
Proof.
  destruct (app.model st) as [m|] eqn:Hm.
  - rewrite (app_predict_loaded _ _ _ Hm).
    pose proof (stateless m (app_X features)) as Hs.
    destruct (predict0 m (app_X features)) as [r m']. simpl in Hs. subst m'.
    destruct st as [mo w]. simpl in Hm. subst mo.
    destruct r as [y|e]; [destruct (normalise _ y)|]; reflexivity.
  - now rewrite (app_predict_unloaded _ _ Hm).
Qed.

Lemma deploy_predict_stateless (st : deploy.State) input env :
  final (deploy.predict input env st) = st.
Proof.
  destruct (deploy.model st) as [m|] eqn:Hm.
  - rewrite (deploy_predict_loaded _ _ _ _ Hm).
    pose proof (stateless m (deploy_X input)) as Hs.
    destruct (predict0 m (deploy_X input)) as [r m']. simpl in Hs. subst m'.
    destruct st as [mo flags]. simpl in Hm. subst mo.
    destruct r as [y|e]; [destruct (normalise _ y)|]; reflexivity.
  - now rewrite (deploy_predict_unloaded _ _ _ Hm).
Qed.

Lemma app_finish_state (x : result Returned * app.State (ModelObj := ModelObj) * list Event) :
  (app.finish x).1.2 = x.1.2.
Proof. destruct x as [[[r|[sc d|cls text]] st] t]; reflexivity. Qed.

Lemma app_handle_stateless req (st : app.State) :
  (app.handle coerce req st).1.2 = st.
Proof.
  destruct req as [|body]; unfold app.handle; [reflexivity|].
  destruct (validate coerce body) as [errs|[[[sl sw] pl] pw]]; [reflexivity|].
  rewrite app_finish_state. apply app_predict_stateless.
Qed.

Lemma deploy_handle_predict_stateless env body (st : deploy.State) :
  (deploy.handle coerce env (deploy.POST_predict body) st).1.2 = st.
Proof.
  unfold deploy.handle.
  destruct (validate coerce body) as [errs|[[[sl sw] pl] pw]]; [reflexivity|].
  rewrite deploy_finish_state. apply deploy_predict_stateless.
Qed.
End Stateless.

(** The species [deploy.py] answers does not depend on the trace id or
    on the elapsed time. *)
Lemma deploy_species_any_env
    {ModelObj : Type} `{!Estimator ModelObj} (coerce : Json -> option PyFloat)
    (st : deploy.State) body env1 env2 :
  json_field (deploy.handle coerce env1 (deploy.POST_predict body) st).1.1 "species"
  = json_field (deploy.handle coerce env2 (deploy.POST_predict body) st).1.1 "species".
Proof.
  unfold deploy.handle.
  destruct (validate coerce body) as [errs|[[[sl sw] pl] pw]]; [reflexivity|].
  destruct (deploy.model st) as [m|] eqn:Hm.
  - rewrite !(deploy_predict_loaded _ _ _ _ Hm).
    destruct (predict0 m _) as [[y|e] m']; [|reflexivity].
    destruct (normalise str_ y); reflexivity.
  - rewrite !(deploy_predict_unloaded _ _ _ Hm). reflexivity.
Qed.

(** C9: with a model loaded whose [predict] is a function of its
    argument that leaves the model object alone, two [POST /predict]
    with the same valid body give the same [species], and after each of
    them the model and the other globals are what they were. *)
Theorem predict_twice_same_species
    {ModelObj : Type} `{!Estimator ModelObj} (coerce : Json -> option PyFloat)
    (sta : app.State) (std : deploy.State) (ma md : ModelObj)
    (env1 env2 : deploy.Env)
    (body : option (gmap string Json)) (sl sw pl pw : PyFloat) :
  (forall (m : ModelObj) (X : Matrix), (predict0 m X).2 = m) ->
  validate coerce body = inr (sl, sw, pl, pw) ->
  app.model sta = Some ma ->
  deploy.model std = Some md ->
  let a1 := app.handle coerce (app.POST_predict body) sta in
  let a2 := app.handle coerce (app.POST_predict body) a1.1.2 in
  let d1 := deploy.handle coerce env1 (deploy.POST_predict body) std in
  let d2 := deploy.handle coerce env2 (deploy.POST_predict body) d1.1.2 in
  (a1.1.2 = sta /\ a2.1.2 = sta
   /\ json_field a1.1.1 "species" = json_field a2.1.1 "species")
  /\ (d1.1.2 = std /\ d2.1.2 = std
      /\ json_field d1.1.1 "species" = json_field d2.1.1 "species").
Proof.
  intros Hs _ _ _ a1 a2 d1 d2. subst a1 a2 d1 d2.
  rewrite !(app_handle_stateless coerce Hs).
  rewrite !(deploy_handle_predict_stateless coerce Hs).
  repeat split. apply deploy_species_any_env.
Qed.

Lemma predict_twice_same_species_witness :
  let a1 := app.handle strict (app.POST_predict (Some flower)) (app_loaded (Ok (LInt 0))) in
  let a2 := app.handle strict (app.POST_predict (Some flower)) a1.1.2 in
  let d1 := deploy.handle strict env0 (deploy.POST_predict (Some flower))
              (deploy_loaded (Ok (LInt 0))) in
  let d2 := deploy.handle strict env1 (deploy.POST_predict (Some flower)) d1.1.2 in
  (a1.1.2 = app_loaded (Ok (LInt 0)) /\ a2.1.2 = app_loaded (Ok (LInt 0))
   /\ json_field a1.1.1 "species" = json_field a2.1.1 "species")
  /\ (d1.1.2 = deploy_loaded (Ok (LInt 0)) /\ d2.1.2 = deploy_loaded (Ok (LInt 0))
      /\ json_field d1.1.1 "species" = json_field d2.1.1 "species").
Proof.
  exact (predict_twice_same_species strict (app_loaded (Ok (LInt 0)))
           (deploy_loaded (Ok (LInt 0))) (Ok (LInt 0)) (Ok (LInt 0)) env0 env1
           (Some flower) f2_0 f0_5 f1_0 f0_2
           (fun m X => eq_refl) eq_refl eq_refl eq_refl).
Defined.

(** The answers to the scenario of the specification. *)
Example flower_species :
  json_field (app.handle strict (app.POST_predict (Some flower))
                (app_loaded (Ok (LInt 0)))).1.1 "species" = Some (VStr "setosa")
  /\ json_field (deploy.handle strict env0 (deploy.POST_predict (Some flower))
                   (deploy_loaded (Ok (LInt 0)))).1.1 "species" = Some (VStr "setosa").
Proof. split; reflexivity. Qed.

(** An estimator that changes with every call answers the same body
    differently: the condition on the estimator is needed. *)
Example counting_model_differs :
  let st : app.State := app.mkState (Some 0) no_cache in
  let a1 := app.handle strict (app.POST_predict (Some flower)) st in
  let a2 := app.handle strict (app.POST_predict (Some flower)) a1.1.2 in
  json_field a1.1.1 "species" = Some (VStr "setosa")
  /\ json_field a2.1.1 "species" = Some (VStr "versicolor")
  /\ a1.1.2 <> st.
Proof.
  cbv zeta. repeat split. intros H. apply (f_equal app.model) in H.
  vm_compute in H. discriminate H.
Qed.

(** ** The body of a successful answer of [deploy.py] *)

Lemma deploy_payload_values env species key v :
  deploy_payload env species !! key = Some v -> text_or_float v.
Proof.
  unfold deploy_payload. intros H.
  repeat (apply lookup_insert_Some in H as [[_ <-]|[_ H]]; [exact I|]).
  apply lookup_singleton_Some in H as [_ <-]. exact I.
Qed.

(** C10: the dictionary [deploy.predict] returns has the normalised
    label, a string, under both [predicted_label] and [species]; every
    value in it is text or the elapsed time, so a raw label that is not
    a string is nowhere in it. *)
Theorem deploy_predicted_label_is_species
    {ModelObj : Type} `{!Estimator ModelObj}
    (st : deploy.State) (input : deploy.Input) (env : deploy.Env)
    (d : gmap string PyVal) :
  outcome (deploy.predict input env st) = Ok (RDict d) ->
  exists m y m' species,
    deploy.model st = Some m
    /\ predict0 m (deploy_X input) = (Ok y, m')
    /\ normalise str_ y = Ok species
    /\ d !! "predicted_label" = Some (VStr species)
    /\ d !! "species" = Some (VStr species)
    /\ (forall key v, d !! key = Some v -> text_or_float v)
    /\ (isinstance_str y = false -> forall key, d !! key <> Some (val_of_label y)).
Proof.
  destruct (deploy.model st) as [m|] eqn:Hm.
  - rewrite (deploy_predict_loaded _ _ _ _ Hm).
    destruct (predict0 m (deploy_X input)) as [[y|e] m'] eqn:Hp; [|discriminate].
    destruct (normalise str_ y) as [species|e] eqn:Hn; [|discriminate].
    intros Hd. assert (d = deploy_payload env species) as ->
      by (unfold outcome in Hd; simpl in Hd; congruence).
    clear Hd. exists m, y, m', species.
    do 5 (split; [reflexivity || assumption|]).
    split; [intros key v; apply deploy_payload_values|].
    intros Hstr key Hkey. apply deploy_payload_values in Hkey.
    destruct y; simpl in *; [discriminate|exact Hkey|exact Hkey].
  - rewrite (deploy_predict_unloaded _ _ _ Hm). discriminate.
Qed.

Lemma deploy_predicted_label_is_species_witness :
  exists m y m' species,
    deploy.model (deploy_loaded (Ok (LInt 1))) = Some m
    /\ predict0 m (deploy_X input0) = (Ok y, m')
    /\ normalise str_ y = Ok species
    /\ deploy_payload env0 "versicolor" !! "predicted_label" = Some (VStr species)
    /\ deploy_payload env0 "versicolor" !! "species" = Some (VStr species)
    /\ (forall key v, deploy_payload env0 "versicolor" !! key = Some v -> text_or_float v)
    /\ (isinstance_str y = false ->
        forall key, deploy_payload env0 "versicolor" !! key <> Some (val_of_label y)).
Proof.
  exact (deploy_predicted_label_is_species (deploy_loaded (Ok (LInt 1))) input0 env0
           (deploy_payload env0 "versicolor") eq_refl).
Defined.

(** [app.py], by contrast, puts the raw label under [predicted_label]. *)
Example app_predicted_label_is_raw :
  json_field (app.handle strict (app.POST_predict (Some flower))
                (app_loaded (Ok (LInt 1)))).1.1 "predicted_label" = Some (VInt 1).
Proof. reflexivity. Qed.

(* ===================================================================== *)
(** * Further properties of [app.py]: the artifact loader                 *)
(* ===================================================================== *)

Section Loader.
Context {ModelObj : Type} `{!Estimator ModelObj}.
Context (joblib_load : Bytes -> result ModelObj).

End Loader.

(** X1: once the artifact has been fetched from the bucket it is in the
    local cache, and any later [load_model] that finds these bytes
    cached gives the same outcome as the first one without touching the
    file system and without a download, whatever has become of the key
    and of the bucket. *)
Theorem fetched_artifact_is_reused
    {ModelObj : Type} `{!Estimator ModelObj}
    (joblib_load : Bytes -> result ModelObj) (st : app.State) (blob : Bytes) :
  app.local_model (app.fs st) = None ->
  app.mkdir_models (app.fs st) = Ok tt ->
  app.key_present (app.fs st) = true ->
  app.gcs_blob (app.fs st) = Ok blob ->
  let first := app.load_model joblib_load st in
  app.local_model (app.fs (final first)) = Some blob
  /\ outcome first = joblib_load blob
  /\ forall st2 : app.State,
       app.local_model (app.fs st2) = app.local_model (app.fs (final first)) ->
       let again := app.load_model joblib_load st2 in
       outcome again = outcome first
       /\ final again = st2
       /\ ~ In "⏳ model.pkl not found locally. Downloading from GCS..."
              (printed (trace again)).
Proof.
  intros Hc Hd Hk Hg first.
  destruct (load_model_fetched joblib_load st blob Hc Hd Hk Hg) as [Hout Hfs].
  fold first in Hout, Hfs. split; [exact Hfs|]. split; [exact Hout|].
  intros st2 Hsame again. subst again. rewrite Hfs in Hsame.
  rewrite (load_model_cached joblib_load st2 blob Hsame), Hout.
  destruct (joblib_load blob); unfold outcome, final, trace, printed; simpl;
    repeat split; try tauto.
  intros [Heq|[]]. discriminate Heq.
Qed.

(** The first load fetches; the second one runs with the key gone. *)
Lemma fetched_artifact_is_reused_witness :
  let first := app.load_model unpickle (app.boot online) in
  app.local_model (app.fs (final first)) = Some [Byte.x80; Byte.x04]
  /\ outcome first = unpickle [Byte.x80; Byte.x04]
  /\ forall st2 : app.State,
       app.local_model (app.fs st2) = app.local_model (app.fs (final first)) ->
       let again := app.load_model unpickle st2 in
       outcome again = outcome first
       /\ final again = st2
       /\ ~ In "⏳ model.pkl not found locally. Downloading from GCS..."
              (printed (trace again)).
Proof.
  exact (fetched_artifact_is_reused unpickle (app.boot online) [Byte.x80; Byte.x04]
           eq_refl eq_refl eq_refl eq_refl).
Defined.




(* ===================================================================== *)
(** * Further properties of the request handlers                          *)
(* ===================================================================== *)

Lemma normalise_ok_iff fallback y :
  (exists species, normalise fallback y = Ok species) <-> coercible y.
Proof.
  unfold coercible. destruct y as [s|z|[k|e] s]; simpl; split;
    try (intros _; eauto; fail).
  - intros [species Hs]. discriminate Hs.
  - intros [Hs|[k Hk]]; discriminate.
Qed.

Section AppRequests.
Context {ModelObj : Type} `{!Estimator ModelObj}.
Context (coerce : Json -> option PyFloat).

(** The answer of [app.py] to a valid body, case by case. *)
Lemma app_handle_valid (st : app.State) body sl sw pl pw :
  validate coerce body = inr (sl, sw, pl, pw) ->
  app.handle coerce (app.POST_predict body) st =
    match app.model st with
    | None => (http_error 503 "Model not loaded. Try again later.", st, [])
    | Some m =>
        match predict0 m [[sl; sw; pl; pw]] with
        | (Ok y, m') =>
            match normalise (fun _ => "unknown") y with
            | Ok species =>
                (mkResponse 200 (BJson (app_payload y species)),
                 app.mkState (Some m') (app.fs st), [EPredict [[sl; sw; pl; pw]]])
            | Raise e =>
                (http_error 500 ("Prediction failed: " +:+ str_exc e),
                 app.mkState (Some m') (app.fs st), [EPredict [[sl; sw; pl; pw]]])
            end
        | (Raise e, m') =>
            (http_error 500 ("Prediction failed: " +:+ str_exc e),
             app.mkState (Some m') (app.fs st), [EPredict [[sl; sw; pl; pw]]])
        end
    end.
Proof.
  intros Hv. unfold app.handle. rewrite Hv.
  destruct (app.model st) as [m|] eqn:Hm.
  - rewrite (app_predict_loaded _ _ _ Hm). unfold app_X. simpl.
    destruct (predict0 m _) as [[y|e] m']; [|reflexivity].
    destruct (normalise _ y); reflexivity.
  - now rewrite (app_predict_unloaded _ _ Hm).
Qed.


End AppRequests.




Section DeployRequests.
Context {ModelObj : Type} `{!Estimator ModelObj}.
Context (coerce : Json -> option PyFloat).

(** The answer of [deploy.py] to a valid body, case by case. *)
Lemma deploy_handle_valid (st : deploy.State) env body sl sw pl pw :
  validate coerce body = inr (sl, sw, pl, pw) ->
  deploy.handle coerce env (deploy.POST_predict body) st =
    match deploy.model st with
    | None =>
        (http_error 500 "Prediction failed", st,
         [deploy_error_log env (Exc "RuntimeError" "Model not loaded")])
    | Some m =>
        match predict0 m [[sl; sw; pl; pw]] with
        | (Ok y, m') =>
            match normalise str_ y with
            | Ok species =>
                (mkResponse 200 (BJson (deploy_payload env species)),
                 deploy.mkState (Some m') (deploy.app_state st),
                 [EPredict [[sl; sw; pl; pw]];
                  deploy_success_log env (deploy.mkInput sl sw pl pw) species])
            | Raise e =>
                (http_error 500 "Prediction failed",
                 deploy.mkState (Some m') (deploy.app_state st),
                 [EPredict [[sl; sw; pl; pw]]; deploy_error_log env e])
            end
        | (Raise e, m') =>
            (http_error 500 "Prediction failed",
             deploy.mkState (Some m') (deploy.app_state st),
             [EPredict [[sl; sw; pl; pw]]; deploy_error_log env e])
        end
    end.
Proof.
  intros Hv. unfold deploy.handle. rewrite Hv.
  destruct (deploy.model st) as [m|] eqn:Hm.
  - rewrite (deploy_predict_loaded _ _ _ _ Hm). unfold deploy_X. simpl.
    destruct (predict0 m _) as [[y|e] m']; [|reflexivity].
    destruct (normalise _ y); reflexivity.
  - now rewrite (deploy_predict_unloaded _ _ _ Hm).
Qed.

(** The health checks of [deploy.py], case by case on the flag. *)
Lemma live_check_cases (st : deploy.State) env :
  deploy.handle coerce env deploy.GET_live_check st =
    match deploy.app_state st !! "is_alive" with
    | Some true => (alive_response, st, [])
    | Some false => (mkResponse 500 BEmpty, st, [])
    | None =>
        (mkResponse 500
           (BJson {[ "detail" := VStr "Internal Server Error";
                     "trace_id" := VStr (deploy.handler_trace_id env) ]}),
         st,
         [ELogJson "ERROR"
            {[ "event" := GStr "unhandled_exception";
               "trace_id" := GStr (deploy.handler_trace_id env);
               "path" := GStr (deploy.url env);
               "error" := GStr "'is_alive'" ]}])
    end.
Proof.
  unfold deploy.handle, deploy.live_check, deploy.get_flag. run_monad.
  destruct (deploy.app_state st !! "is_alive") as [[|]|]; reflexivity.
Qed.

Lemma ready_check_cases (st : deploy.State) env :
  deploy.handle coerce env deploy.GET_ready_check st =
    match deploy.app_state st !! "is_ready" with
    | Some true => (ready_response, st, [])
    | Some false => (mkResponse 503 BEmpty, st, [])
    | None =>
        (mkResponse 500
           (BJson {[ "detail" := VStr "Internal Server Error";
                     "trace_id" := VStr (deploy.handler_trace_id env) ]}),
         st,
         [ELogJson "ERROR"
            {[ "event" := GStr "unhandled_exception";
               "trace_id" := GStr (deploy.handler_trace_id env);
               "path" := GStr (deploy.url env);
               "error" := GStr "'is_ready'" ]}])
    end.
Proof.
  unfold deploy.handle, deploy.ready_check, deploy.get_flag. run_monad.
  destruct (deploy.app_state st !! "is_ready") as [[|]|]; reflexivity.
Qed.
End DeployRequests.

(** X6: the status of the answer of [deploy.py] to [POST /predict] is
    422, 200 or 500 and nothing else: 422 exactly for a malformed body;
    200 exactly when the body is valid, a model is loaded, the estimator
    returns a label and the label is a string or converts with [int];
    every other case, a missing model included, is the one 500. *)
Theorem deploy_predict_status
    {ModelObj : Type} `{!Estimator ModelObj} (coerce : Json -> option PyFloat)
    (st : deploy.State) (env : deploy.Env) (body : option (gmap string Json)) :
  let r := (deploy.handle coerce env (deploy.POST_predict body) st).1.1 in
  (status_code r = 422 \/ status_code r = 200 \/ r = http_error 500 "Prediction failed")
  /\ (status_code r = 422 <-> malformed coerce body)
  /\ (status_code r = 200 <->
        exists sl sw pl pw m y m',
          validate coerce body = inr (sl, sw, pl, pw)
          /\ deploy.model st = Some m
          /\ predict0 m [[sl; sw; pl; pw]] = (Ok y, m')
          /\ coercible y).
Proof.
  cbv zeta.
  destruct (validate coerce body) as [errs|[[[sl sw] pl] pw]] eqn:Hv.
  - pose proof (validate_errors coerce body errs Hv) as Hbad.
    unfold deploy.handle. rewrite Hv. simpl.
    split; [auto|]. split; [tauto|]. split; [discriminate|].
    intros (? & ? & ? & ? & ? & ? & ? & Hx & _). discriminate Hx.
  - assert (Hgood : ~ malformed coerce body).
    { intros Hbad. destruct (validate_malformed coerce body Hbad) as [errs He].
      congruence. }
    rewrite (deploy_handle_valid coerce st env body sl sw pl pw Hv).
    destruct (deploy.model st) as [m|] eqn:Hm.
    + destruct (predict0 m [[sl; sw; pl; pw]]) as [[y|e] m'] eqn:Hp.
      * destruct (normalise str_ y) as [species|e] eqn:Hn; simpl.
        -- split; [auto|]. split; [split; [discriminate|tauto]|].
           split; [intros _|reflexivity].
           exists sl, sw, pl, pw, m, y, m'. repeat split; try assumption.
           apply (normalise_ok_iff str_). eauto.
        -- split; [auto|]. split; [split; [discriminate|tauto]|].
           split; [discriminate|].
           intros (sl' & sw' & pl' & pw' & m1 & y1 & m1' & [= <- <- <- <-] & [= <-] & Hp1 & Hc).
           rewrite Hp in Hp1. injection Hp1 as <- <-.
           apply (normalise_ok_iff str_) in Hc as [species Hs]. congruence.
      * simpl. split; [auto|]. split; [split; [discriminate|tauto]|].
        split; [discriminate|].
        intros (sl' & sw' & pl' & pw' & m1 & y1 & m1' & [= <- <- <- <-] & [= <-] & Hp1 & _).
        rewrite Hp in Hp1. discriminate Hp1.
    + simpl. split; [auto|]. split; [split; [discriminate|tauto]|].
      split; [discriminate|].
      intros (? & ? & ? & ? & ? & ? & ? & _ & Hx & _). discriminate Hx.
Qed.

(** X7: whatever the request and the state, either variant calls the
    estimator at most once, and exactly once when the request is a
    [POST /predict] with a valid body and a model is loaded; [app.py]
    leaves no other trace of a request. *)
Theorem estimator_called_at_most_once
    {ModelObj : Type} `{!Estimator ModelObj} (coerce : Json -> option PyFloat)
    (sta : app.State) (std : deploy.State) (env : deploy.Env)
    (reqa : app.Request) (reqd : deploy.Request) :
  let ta := (app.handle coerce reqa sta).2 in
  let td := (deploy.handle coerce env reqd std).2 in
  (ta = [] \/ exists X, ta = [EPredict X])
  /\ (count_predict ta = 1%nat <->
        exists body sl sw pl pw,
          reqa = app.POST_predict body
          /\ validate coerce body = inr (sl, sw, pl, pw)
          /\ is_Some (app.model sta))
  /\ (count_predict td <= 1)%nat
  /\ (count_predict td = 1%nat <->
        exists body sl sw pl pw,
          reqd = deploy.POST_predict body
          /\ validate coerce body = inr (sl, sw, pl, pw)
          /\ is_Some (deploy.model std)).
Proof.
  cbv zeta. split; [|split; [|split]].
  - destruct reqa as [|body]; [left; reflexivity|].
    destruct (validate coerce body) as [errs|[[[sl sw] pl] pw]] eqn:Hv.
    + unfold app.handle. rewrite Hv. left. reflexivity.
    + rewrite (app_handle_valid coerce sta body sl sw pl pw Hv).
      destruct (app.model sta) as [m|]; [|left; reflexivity].
      destruct (predict0 m _) as [[y|e] m']; [destruct (normalise _ y)|];
        right; eauto.
  - destruct reqa as [|body].
    { simpl. split; [discriminate|]. intros (? & ? & ? & ? & ? & Hx & _). discriminate Hx. }
    destruct (validate coerce body) as [errs|[[[sl sw] pl] pw]] eqn:Hv.
    + unfold app.handle. rewrite Hv. simpl. split; [discriminate|].
      intros (b & ? & ? & ? & ? & [= <-] & Hx & _). congruence.
    + rewrite (app_handle_valid coerce sta body sl sw pl pw Hv).
      destruct (app.model sta) as [m|] eqn:Hm.
      * split; [intros _; exists body, sl, sw, pl, pw; eauto|intros _].
        destruct (predict0 m _) as [[y|e] m']; [destruct (normalise _ y)|];
          reflexivity.
      * simpl. split; [discriminate|].
        intros (? & ? & ? & ? & ? & _ & _ & [m Hx]). discriminate Hx.
  - destruct reqd as [| |body].
    + rewrite live_check_cases.
      destruct (deploy.app_state std !! "is_alive") as [[|]|]; simpl; auto.
    + rewrite ready_check_cases.
      destruct (deploy.app_state std !! "is_ready") as [[|]|]; simpl; auto.
    + destruct (validate coerce body) as [errs|[[[sl sw] pl] pw]] eqn:Hv.
      * unfold deploy.handle. rewrite Hv. simpl. auto.
      * rewrite (deploy_handle_valid coerce std env body sl sw pl pw Hv).
        destruct (deploy.model std) as [m|]; [|simpl; auto].
        destruct (predict0 m _) as [[y|e] m']; [destruct (normalise _ y)|];
          simpl; auto.
  - destruct reqd as [| |body].
    + rewrite live_check_cases. split.
      * destruct (deploy.app_state std !! "is_alive") as [[|]|]; discriminate.
      * intros (? & ? & ? & ? & ? & Hx & _). discriminate Hx.
    + rewrite ready_check_cases. split.
      * destruct (deploy.app_state std !! "is_ready") as [[|]|]; discriminate.
      * intros (? & ? & ? & ? & ? & Hx & _). discriminate Hx.
    + destruct (validate coerce body) as [errs|[[[sl sw] pl] pw]] eqn:Hv.
      * unfold deploy.handle. rewrite Hv. simpl. split; [discriminate|].
        intros (b & ? & ? & ? & ? & [= <-] & Hx & _). congruence.
      * rewrite (deploy_handle_valid coerce std env body sl sw pl pw Hv).
        destruct (deploy.model std) as [m|] eqn:Hm.
        -- split; [intros _; exists body, sl, sw, pl, pw; eauto|intros _].
           destruct (predict0 m _) as [[y|e] m']; [destruct (normalise _ y)|];
             reflexivity.
        -- simpl. split; [discriminate|].
           intros (? & ? & ? & ? & ? & _ & _ & [m Hx]). discriminate Hx.
Qed.

(** X8: [deploy.py] writes nothing to the log for a body that fails
    validation, and exactly one structured record for a body that passes
    it. The record carries the trace id of the inference span. On
    success it is an INFO ["prediction"] record holding the feature
    matrix and the very dictionary sent back, which carries the same
    trace id; otherwise it is an ERROR ["prediction_error"] record with
    the text of the failure, and the answer carries no trace id. *)
Theorem deploy_one_record_per_attempt
    {ModelObj : Type} `{!Estimator ModelObj} (coerce : Json -> option PyFloat)
    (st : deploy.State) (env : deploy.Env) (body : option (gmap string Json)) :
  let x := deploy.handle coerce env (deploy.POST_predict body) st in
  match validate coerce body with
  | inl _ => log_records x.2 = []
  | inr (sl, sw, pl, pw) =>
      exists level fields,
        log_records x.2 = [(level, fields)]
        /\ fields !! "trace_id" = Some (GStr (deploy.span_trace_id env))
        /\ ((status_code x.1.1 = 200 /\ level = "INFO"
             /\ fields !! "event" = Some (GStr "prediction")
             /\ fields !! "input" = Some (GMatrix [[sl; sw; pl; pw]])
             /\ (exists d, Py.body x.1.1 = BJson d /\ fields !! "output" = Some (GDict d))
             /\ json_field x.1.1 "trace_id" = Some (VStr (deploy.span_trace_id env)))
            \/ (status_code x.1.1 = 500 /\ level = "ERROR"
                /\ fields !! "event" = Some (GStr "prediction_error")
                /\ (exists text, fields !! "error" = Some (GStr text))
                /\ json_field x.1.1 "trace_id" = None))
  end.
Proof.
  cbv zeta.
  destruct (validate coerce body) as [errs|[[[sl sw] pl] pw]] eqn:Hv.
  - unfold deploy.handle. rewrite Hv. reflexivity.
  - rewrite (deploy_handle_valid coerce st env body sl sw pl pw Hv).
    assert (Herr : forall e (st' : deploy.State (ModelObj := ModelObj)) t0,
      log_records t0 = [] ->
      let x := (http_error 500 "Prediction failed", st', (t0 ++ [deploy_error_log env e])%list) in
      exists level fields,
        log_records x.2 = [(level, fields)]
        /\ fields !! "trace_id" = Some (GStr (deploy.span_trace_id env))
        /\ ((status_code x.1.1 = 200 /\ level = "INFO"
             /\ fields !! "event" = Some (GStr "prediction")
             /\ fields !! "input" = Some (GMatrix [[sl; sw; pl; pw]])
             /\ (exists d, Py.body x.1.1 = BJson d /\ fields !! "output" = Some (GDict d))
             /\ json_field x.1.1 "trace_id" = Some (VStr (deploy.span_trace_id env)))
            \/ (status_code x.1.1 = 500 /\ level = "ERROR"
                /\ fields !! "event" = Some (GStr "prediction_error")
                /\ (exists text, fields !! "error" = Some (GStr text))
                /\ json_field x.1.1 "trace_id" = None))).
    { intros e st' t0 Ht0. cbv zeta. eexists _, _. split.
      - unfold log_records in *. cbn [snd]. rewrite flat_map_app, Ht0. reflexivity.
      - split; [reflexivity|]. right. repeat split; eauto. }
    destruct (deploy.model st) as [m|].
    + destruct (predict0 m _) as [[y|e] m'].
      * destruct (normalise str_ y) as [species|e].
        -- eexists _, _. split; [reflexivity|]. split; [reflexivity|].
           left. repeat split; eauto.
        -- apply (Herr e _ [EPredict [[sl; sw; pl; pw]]]). reflexivity.
      * apply (Herr e _ [EPredict [[sl; sw; pl; pw]]]). reflexivity.
    + apply (Herr _ _ []). reflexivity.
Qed.

(** ** The two fallbacks *)

Lemma species_of_index_same (f g : string) (k : Z) :
  species_of_index f k = species_of_index g k <-> in_table k \/ f = g.
Proof.
  unfold species_of_index, in_table.
  repeat case_decide; subst; split; auto; tauto.
Qed.

(** X9: on the same answer of the estimator the two variants succeed or
    fail together, and they return different species exactly when the
    label is no string, [int] converts it to an index outside the table,
    and its string form is not ["unknown"]. *)
Theorem variants_differ_only_outside_table
    {ModelObj : Type} `{!Estimator ModelObj}
    (sta : app.State) (std : deploy.State) (ma ma' md md' : ModelObj)
    (features : app.IrisInput) (input : deploy.Input) (env : deploy.Env)
    (y : RawLabel) :
  app.model sta = Some ma ->
  predict0 ma (app_X features) = (Ok y, ma') ->
  deploy.model std = Some md ->
  predict0 md (deploy_X input) = (Ok y, md') ->
  let species_app := species_returned (outcome (app.predict features sta)) in
  let species_deploy := species_returned (outcome (deploy.predict input env std)) in
  (is_Some species_app <-> is_Some species_deploy)
  /\ (species_app <> species_deploy <->
        isinstance_str y = false
        /\ exists k, int_ y = Ok k /\ ~ in_table k /\ str_ y <> "unknown").
Proof.
  intros Hma Hpa Hmd Hpd species_app species_deploy.
  subst species_app species_deploy.
  rewrite (app_predict_loaded _ _ _ Hma), Hpa.
  rewrite (deploy_predict_loaded _ _ _ _ Hmd), Hpd. cbv zeta.
  destruct y as [s|z|[k|e] s]; unfold outcome, species_returned; simpl.
  - rewrite app_payload_species, deploy_payload_species. split; [tauto|].
    split; [intros Hne; now destruct Hne|]. intros [Hx _]. discriminate Hx.
  - rewrite app_payload_species, deploy_payload_species. split; [split; eauto|].
    split.
    + intros Hne. split; [reflexivity|]. exists z. split; [reflexivity|].
      split.
      * intros Hin. apply Hne. do 2 f_equal. apply species_of_index_same. auto.
      * intros Heq. apply Hne. do 2 f_equal. apply species_of_index_same. auto.
    + intros (_ & k & [= <-] & Hout & Hstr) [= Heq].
      apply species_of_index_same in Heq as [Hin|Heq]; auto.
  - rewrite app_payload_species, deploy_payload_species. split; [split; eauto|].
    split.
    + intros Hne. split; [reflexivity|]. exists k. split; [reflexivity|].
      split.
      * intros Hin. apply Hne. do 2 f_equal. apply species_of_index_same. auto.
      * intros Heq. apply Hne. do 2 f_equal. apply species_of_index_same. auto.
    + intros (_ & k' & [= <-] & Hout & Hstr) [= Heq].
      apply species_of_index_same in Heq as [Hin|Heq]; auto.
  - split; [split; intros [? Hx]; discriminate Hx|].
    split; [congruence|]. intros (_ & k & Hx & _). discriminate Hx.
Qed.

(** Class 7: ["unknown"] in one variant, ["7"] in the other. *)
Lemma variants_differ_only_outside_table_witness :
  species_returned (outcome (app.predict iris (app_loaded (Ok (LInt 7)))))
  <> species_returned (outcome (deploy.predict input0 env0 (deploy_loaded (Ok (LInt 7))))).
Proof.
  apply (proj2 (variants_differ_only_outside_table
                  (app_loaded (Ok (LInt 7))) (deploy_loaded (Ok (LInt 7)))
                  (Ok (LInt 7)) (Ok (LInt 7)) (Ok (LInt 7)) (Ok (LInt 7))
                  iris input0 env0 (LInt 7) eq_refl eq_refl eq_refl eq_refl)).
  split; [reflexivity|]. exists 7. split; [reflexivity|].
  split; [|discriminate]. unfold in_table. intros [Hx|[Hx|Hx]]; discriminate Hx.
Defined.

(** X10: in [deploy.py] two integer labels outside the table that are
    different give different species, so the index can be read back
    from the answer. *)
Theorem deploy_fallback_keeps_index
    {ModelObj : Type} `{!Estimator ModelObj}
    (st1 st2 : deploy.State) (m1 m1' m2 m2' : ModelObj)
    (input1 input2 : deploy.Input) (env1 env2 : deploy.Env) (z1 z2 : Z) :
  deploy.model st1 = Some m1 ->
  predict0 m1 (deploy_X input1) = (Ok (LInt z1), m1') ->
  deploy.model st2 = Some m2 ->
  predict0 m2 (deploy_X input2) = (Ok (LInt z2), m2') ->
  ~ in_table z1 -> ~ in_table z2 ->
  species_returned (outcome (deploy.predict input1 env1 st1))
    = species_returned (outcome (deploy.predict input2 env2 st2)) ->
  z1 = z2.
Proof.
  intros H1 Hp1 H2 Hp2 Ho1 Ho2.
  rewrite (deploy_predict_loaded _ _ _ _ H1), Hp1.
  rewrite (deploy_predict_loaded _ _ _ _ H2), Hp2. cbv zeta.
  unfold outcome, species_returned; simpl.
  rewrite !deploy_payload_species.
  destruct (species_of_index_cases (pretty z1) z1) as (_ & _ & _ & E1).
  destruct (species_of_index_cases (pretty z2) z2) as (_ & _ & _ & E2).
  unfold in_table in *.
  rewrite E1, E2 by tauto.
  intros [= Heq]. now apply (inj pretty) in Heq.
Qed.

Lemma deploy_fallback_keeps_index_witness :
  species_returned (outcome (deploy.predict input0 env0 (deploy_loaded (Ok (LInt 7)))))
    = Some (VStr "7")
  /\ 7 = 3 + 4.
Proof.
  split; [reflexivity|].
  apply (deploy_fallback_keeps_index
           (deploy_loaded (Ok (LInt 7))) (deploy_loaded (Ok (LInt (3 + 4))))
           (Ok (LInt 7)) (Ok (LInt 7)) (Ok (LInt (3 + 4))) (Ok (LInt (3 + 4)))
           input0 input0 env0 env1 7 (3 + 4) eq_refl eq_refl eq_refl eq_refl);
    [unfold in_table; intros [Hx|[Hx|Hx]]; discriminate Hx
    |unfold in_table; intros [Hx|[Hx|Hx]]; discriminate Hx
    |reflexivity].
Defined.

(** ** The dictionary [app.py] returns *)

Lemma app_payload_keys y species key :
  is_Some (app_payload y species !! key)
  <-> key = "status" \/ key = "predicted_label" \/ key = "species".
Proof.
  unfold app_payload. split.
  - intros [v Hv].
    apply lookup_insert_Some in Hv as [ [Hk _] | [_ Hv] ]; [subst key; auto|].
    apply lookup_insert_Some in Hv as [ [Hk _] | [_ Hv] ]; [subst key; auto|].
    apply lookup_singleton_Some in Hv as [Hk _]. subst key. auto.
  - intros [ -> | [ -> | -> ] ]; eexists; reflexivity.
Qed.

(** X11: the dictionary of a successful answer of [app.py] has exactly
    the keys [status], [predicted_label] and [species]; [predicted_label]
    is the raw label as the estimator returned it, so it is the same as
    [species] exactly when the raw label is a string. *)
Theorem app_predicted_label_raw
    {ModelObj : Type} `{!Estimator ModelObj}
    (st : app.State) (m m' : ModelObj) (features : app.IrisInput)
    (y : RawLabel) (d : gmap string PyVal) :
  app.model st = Some m ->
  predict0 m (app_X features) = (Ok y, m') ->
  outcome (app.predict features st) = Ok (RDict d) ->
  d !! "status" = Some (VStr "success")
  /\ d !! "predicted_label" = Some (val_of_label y)
  /\ (d !! "predicted_label" = d !! "species" <-> isinstance_str y = true)
  /\ (forall key, is_Some (d !! key)
        <-> key = "status" \/ key = "predicted_label" \/ key = "species").
Proof.
  intros Hm Hp. rewrite (app_predict_loaded _ _ _ Hm), Hp. cbv zeta.
  destruct (normalise (fun _ => "unknown") y) as [species|e] eqn:Hn;
    unfold outcome; simpl; [|discriminate].
  intros [= <-]. split; [reflexivity|]. split; [reflexivity|].
  split; [|intros key; apply app_payload_keys].
  rewrite app_payload_species, app_payload_predicted_label.
  destruct y as [s|z|i s]; simpl in *.
  - injection Hn as <-. tauto.
  - split; discriminate.
  - split; discriminate.
Qed.

Lemma app_predicted_label_raw_witness :
  app_payload (LInt 1) "versicolor" !! "predicted_label" = Some (VInt 1)
  /\ app_payload (LInt 1) "versicolor" !! "species" = Some (VStr "versicolor").
Proof.
  pose proof (app_predicted_label_raw (app_loaded (Ok (LInt 1))) (Ok (LInt 1))
                (Ok (LInt 1)) iris (LInt 1) (app_payload (LInt 1) "versicolor")
                eq_refl eq_refl eq_refl) as (_ & Hl & _).
  split; [exact Hl | reflexivity].
Defined.

(** ** The health checks on any state *)

(** X12: on any value of the globals of [deploy.py] the two health
    checks leave the globals alone and never call the estimator;
    [/live_check] answers 200 exactly when [is_alive] is true and 500
    otherwise; [/ready_check] answers 200 exactly when [is_ready] is
    true, 503 exactly when it is false, and 500 exactly when the key is
    missing from [app_state]. *)
Theorem health_checks_read_only
    {ModelObj : Type} `{!Estimator ModelObj} (coerce : Json -> option PyFloat)
    (st : deploy.State) (env : deploy.Env) :
  let live := deploy.handle coerce env deploy.GET_live_check st in
  let ready := deploy.handle coerce env deploy.GET_ready_check st in
  (live.1.2 = st /\ ready.1.2 = st)
  /\ (count_predict live.2 = 0%nat /\ count_predict ready.2 = 0%nat)
  /\ (status_code live.1.1 = 200 <-> deploy.app_state st !! "is_alive" = Some true)
  /\ (status_code live.1.1 = 200 \/ status_code live.1.1 = 500)
  /\ (status_code ready.1.1 = 200 <-> deploy.app_state st !! "is_ready" = Some true)
  /\ (status_code ready.1.1 = 503 <-> deploy.app_state st !! "is_ready" = Some false)
  /\ (status_code ready.1.1 = 500 <-> deploy.app_state st !! "is_ready" = None).
Proof.
  cbv zeta. rewrite live_check_cases, ready_check_cases.
  destruct (deploy.app_state st !! "is_alive") as [[|]|];
    destruct (deploy.app_state st !! "is_ready") as [[|]|]; simpl;
    repeat split; auto; discriminate.
Qed.

(** With the flags gone both checks answer 500 through the exception
    handler. *)
Example health_checks_without_flags :
  (deploy.handle strict env0 deploy.GET_live_check deploy_no_flags).1.1
    = mkResponse 500
        (BJson {[ "detail" := VStr "Internal Server Error";
                  "trace_id" := VStr "00000000000000000000000000000000" ]})
  /\ status_code (deploy.handle strict env0 deploy.GET_ready_check deploy_no_flags).1.1
     = 500.
Proof. split; reflexivity. Qed.



(** ** What a request can change *)

(** X14: a request never writes the file system of [app.py] nor the
    flags of [deploy.py], and never sets the model to [None] or loads
    one: the only change it can make to the globals is the one the
    estimator's own [predict] makes to the model object, and that change
    stays whether the request succeeds or not. *)
Theorem requests_only_touch_the_model_object
    {ModelObj : Type} `{!Estimator ModelObj} (coerce : Json -> option PyFloat)
    (sta : app.State) (std : deploy.State) (env : deploy.Env)
    (reqa : app.Request) (reqd : deploy.Request) :
  let sta' := (app.handle coerce reqa sta).1.2 in
  let std' := (deploy.handle coerce env reqd std).1.2 in
  app.fs sta' = app.fs sta
  /\ (sta' = sta
      \/ exists m X, app.model sta = Some m
                     /\ (app.handle coerce reqa sta).2 = [EPredict X]
                     /\ app.model sta' = Some (predict0 m X).2)
  /\ deploy.app_state std' = deploy.app_state std
  /\ (std' = std
      \/ exists m X, deploy.model std = Some m
                     /\ In (EPredict X) (deploy.handle coerce env reqd std).2
                     /\ deploy.model std' = Some (predict0 m X).2).
Proof.
  cbv zeta. split; [|split; [|split]].
  - destruct reqa as [|body]; [reflexivity|].
    destruct (validate coerce body) as [errs|[[[sl sw] pl] pw]] eqn:Hv.
    + unfold app.handle. rewrite Hv. reflexivity.
    + rewrite (app_handle_valid coerce sta body sl sw pl pw Hv).
      destruct (app.model sta) as [m|]; [|reflexivity].
      destruct (predict0 m _) as [[y|e] m']; [destruct (normalise _ y)|];
        reflexivity.
  - destruct reqa as [|body]; [left; reflexivity|].
    destruct (validate coerce body) as [errs|[[[sl sw] pl] pw]] eqn:Hv.
    + unfold app.handle. rewrite Hv. left. reflexivity.
    + rewrite (app_handle_valid coerce sta body sl sw pl pw Hv).
      destruct (app.model sta) as [m|] eqn:Hm; [|left; reflexivity].
      right. exists m, [[sl; sw; pl; pw]]. split; [reflexivity|].
      destruct (predict0 m _) as [[y|e] m']; [destruct (normalise _ y)|];
        split; reflexivity.
  - apply deploy_handle_globals.
  - destruct reqd as [| |body].
    + rewrite live_check_cases. left.
      destruct (deploy.app_state std !! "is_alive") as [[|]|]; reflexivity.
    + rewrite ready_check_cases. left.
      destruct (deploy.app_state std !! "is_ready") as [[|]|]; reflexivity.
    + destruct (validate coerce body) as [errs|[[[sl sw] pl] pw]] eqn:Hv.
      * unfold deploy.handle. rewrite Hv. left. reflexivity.
      * rewrite (deploy_handle_valid coerce std env body sl sw pl pw Hv).
        destruct (deploy.model std) as [m|] eqn:Hm; [|left; reflexivity].
        right. exists m, [[sl; sw; pl; pw]]. split; [reflexivity|].
        destruct (predict0 m _) as [[y|e] m']; [destruct (normalise _ y)|];
          simpl; auto.
Qed.

(** The counting estimator is one call further after a request that was
    answered with 200. *)
Example counting_model_advances :
  app.model (app.handle strict (app.POST_predict (Some flower))
               (app.mkState (Some 41) no_cache)).1.2 = Some 42.
Proof. reflexivity. Qed.
